(** * d2l-nnx, chapter 9: the from-scratch recurrent network

    A shallow embedding of [RNNScratch] from
    [ch09_recurrent-neural-networks/5-rnn-scratch-2.ipynb] and the
    properties its specification states about it.

    The notebook leaves all arithmetic to [jax.numpy].  The embedding keeps
    the element arithmetic abstract (class [Scalar]: a type with zero,
    addition, multiplication and tanh, of which [float32] is one reading) and
    models, concretely, what the Python code itself decides: which library
    call is made with which operands and in which order, how shapes are
    checked by [jnp.matmul] and by broadcasting, how [state, = state]
    unpacks, how the loop threads [state] and appends to [outputs], and what
    the module object holds.  Statements that hold of every [Scalar] hold
    whatever the rounding; the one that needs laws of arithmetic names them
    ([ExactScalar]). *)

From Stdlib Require Import List Arith Bool ZArith Lia.
From Stdlib Require PrimFloat.
Import ListNotations.

Set Implicit Arguments.
Set Warnings "-register-all".

(* ================================================================== *)
(** ** Element arithmetic *)

(** The element type of a [jax] array with the four operations the notebook
    reaches through [jnp.matmul], [+] and [jnp.tanh]. *)
Class Scalar (F : Type) : Type := {
  fzero : F;
  fadd  : F -> F -> F;
  fmul  : F -> F -> F;
  ftanh : F -> F
}.

(** Laws of exact arithmetic: zero is neutral for addition and absorbing for
    multiplication. *)
Class ExactScalar (F : Type) `{Scalar F} : Prop := {
  fadd_0_r : forall a : F, fadd a fzero = a;
  fmul_0_l : forall a : F, fmul fzero a = fzero
}.
Arguments ExactScalar F {_}.

(* ================================================================== *)
(** ** Arrays and the [jax.numpy] calls of the notebook *)

Section Library.
Context {F : Type} `{Scalar F}.

(** A [jax] array of rank 0, 1 or 2.  A rank-2 array carries its number of
    columns, so that the shape [(0, c)] is not lost; its rows are in row-major
    order. *)
Inductive array : Type :=
| Arr0 (x : F)
| Arr1 (v : list F)
| Arr2 (ncols : nat) (rows : list (list F)).

Definition rank (a : array) : nat :=
  match a with Arr0 _ => 0 | Arr1 _ => 1 | Arr2 _ _ => 2 end.

(** [a.shape] *)
Definition shape (a : array) : list nat :=
  match a with
  | Arr0 _ => []
  | Arr1 v => [length v]
  | Arr2 c rows => [length rows; c]
  end.

(** Every row of a rank-2 array has [ncols] entries. *)
Definition rectangular (a : array) : Prop :=
  match a with
  | Arr2 c rows => Forall (fun r => length r = c) rows
  | _ => True
  end.

(** [jnp.zeros((b, h))] *)
Definition zeros (b h : nat) : array := Arr2 h (repeat (repeat fzero h) b).

Definition zip_with {A B C} (f : A -> B -> C) (l1 : list A) (l2 : list B) : list C :=
  map (fun p => f (fst p) (snd p)) (combine l1 l2).

(** Sum of products, accumulated from zero. *)
Definition dot (u v : list F) : F :=
  fold_left fadd (zip_with fmul u v) fzero.

Definition column (j : nat) (w : list (list F)) : list F :=
  map (fun r => nth j r fzero) w.

(** A row vector times a matrix with [c] columns. *)
Definition vecmat (c : nat) (v : list F) (w : list (list F)) : list F :=
  map (fun j => dot v (column j w)) (seq 0 c).

(** What a library call can raise. *)
Inductive exn : Type :=
| UnpackError          (* [state, = state]: not an iterable of exactly one item *)
| MatmulOperandError   (* [jnp.matmul] on a rank-0 array or a non-array *)
| MatmulShapeError     (* [jnp.matmul]: contracting dimensions differ *)
| BroadcastShapeError. (* [+]: shapes that do not broadcast *)

Inductive result (A : Type) : Type :=
| Ok (a : A)
| Raise (e : exn).
Arguments Raise {A} e.

(** [jnp.matmul(a, b)] on operands of rank at most 2: the contracting
    dimension is the last of [a] and the first of [b]. *)
Definition matmul (a b : array) : result array :=
  match a, b with
  | Arr2 k rows, Arr2 c w =>
      if k =? length w then Ok (Arr2 c (map (fun r => vecmat c r w) rows))
      else Raise MatmulShapeError
  | Arr1 v, Arr2 c w =>
      if length v =? length w then Ok (Arr1 (vecmat c v w))
      else Raise MatmulShapeError
  | Arr2 k rows, Arr1 w =>
      if k =? length w then Ok (Arr1 (map (fun r => dot r w) rows))
      else Raise MatmulShapeError
  | Arr1 v, Arr1 w =>
      if length v =? length w then Ok (Arr0 (dot v w))
      else Raise MatmulShapeError
  | _, _ => Raise MatmulOperandError
  end.

(** Broadcasting of one dimension: equal, or one of the two is 1. *)
Definition bdim (a b : nat) : option nat :=
  if a =? b then Some a
  else if a =? 1 then Some b
  else if b =? 1 then Some a
  else None.

(** [broadcast_to] along one axis: a single item is repeated [n] times. *)
Definition stretch {A} (n : nat) (l : list A) : list A :=
  if length l =? n then l
  else match l with
       | [x] => repeat x n
       | _ => l
       end.

Definition add_vec (n : nat) (u v : list F) : list F :=
  zip_with fadd (stretch n u) (stretch n v).

(** The operand with its shape padded on the left with 1s up to rank 2. *)
Definition atleast_2d (a : array) : nat * list (list F) :=
  match a with
  | Arr0 x => (1, [[x]])
  | Arr1 v => (length v, [v])
  | Arr2 c rows => (c, rows)
  end.

Definition of_rows (rk c : nat) (rows : list (list F)) : array :=
  match rk with
  | 0 => Arr0 (hd fzero (hd [] rows))
  | 1 => Arr1 (hd [] rows)
  | _ => Arr2 c rows
  end.

(** [a + b] with broadcasting. *)
Definition add (a b : array) : result array :=
  let '(c1, r1) := atleast_2d a in
  let '(c2, r2) := atleast_2d b in
  match bdim c1 c2, bdim (length r1) (length r2) with
  | Some c, Some r =>
      Ok (of_rows (Nat.max (rank a) (rank b)) c
            (zip_with (add_vec c) (stretch r r1) (stretch r r2)))
  | _, _ => Raise BroadcastShapeError
  end.

(** [jnp.tanh(a)], element by element. *)
Definition tanh (a : array) : array :=
  match a with
  | Arr0 x => Arr0 (ftanh x)
  | Arr1 v => Arr1 (map ftanh v)
  | Arr2 c rows => Arr2 c (map (map ftanh) rows)
  end.

(** The entries of an array, row by row. *)
Definition entries (a : array) : list F :=
  match a with
  | Arr0 x => [x]
  | Arr1 v => v
  | Arr2 _ rows => concat rows
  end.

(* ================================================================== *)
(** ** Python values *)

(** What [__call__] can be handed as [state] and what it can return:
    [None], a tuple (or list) of values, or an array. *)
Inductive pyval : Type :=
| PyNone
| PyTuple (items : list pyval)
| PyArr (a : array).

(** The items that iterating a value yields: a tuple's items, the slices of
    an array along its first axis; [None] when the value cannot be iterated
    ([None] itself, a rank-0 array). *)
Definition py_iter (v : pyval) : option (list pyval) :=
  match v with
  | PyNone => None
  | PyTuple items => Some items
  | PyArr (Arr0 _) => None
  | PyArr (Arr1 xs) => Some (map (fun x => PyArr (Arr0 x)) xs)
  | PyArr (Arr2 _ rows) => Some (map (fun r => PyArr (Arr1 r)) rows)
  end.

(** A length-one sequence: iterable, with exactly one item. *)
Definition length_one (v : pyval) : bool :=
  match py_iter v with
  | Some [_] => true
  | _ => false
  end.

(** [is None] *)
Definition is_none (v : pyval) : bool :=
  match v with PyNone => true | _ => false end.

(* ================================================================== *)
(** ** The module object and the interpreter state *)

(** The attributes [__init__] sets on [self]. *)
Record RNNScratch : Type := {
  W_xh : array;
  W_hh : array;
  b_h : array;
  num_hiddens : nat
}.

(** The library calls, as they are entered. *)
Inductive op : Type := OpMatmul | OpAdd | OpTanh.

(** The state a call runs in: the module object and the library calls
    entered so far. *)
Record machine : Type := {
  self : RNNScratch;
  trace : list op
}.

(** Computations that read and write the machine and may raise. *)
Definition M (A : Type) : Type := machine -> result A * machine.

Definition ret {A} (a : A) : M A := fun m => (Ok a, m).

Definition bind {A B} (c : M A) (k : A -> M B) : M B :=
  fun m =>
    match c m with
    | (Ok a, m') => k a m'
    | (Raise e, m') => (Raise e, m')
    end.

Definition raise {A} (e : exn) : M A := fun m => (Raise e, m).

(** Attribute read, [self.f]. *)
Definition getattr {A} (f : RNNScratch -> A) : M A := fun m => (Ok (f (self m)), m).

(** Entering a library call. *)
Definition enter (o : op) : M unit :=
  fun m => (Ok tt, {| self := self m; trace := trace m ++ [o] |}).

Definition lift {A} (r : result A) : M A := fun m => (r, m).

End Library.

Arguments array F : clear implicits.
Arguments pyval F : clear implicits.
Arguments RNNScratch F : clear implicits.
Arguments machine F : clear implicits.
Arguments M F A : clear implicits.
Arguments Raise {A} e.

Declare Scope py_scope.
Delimit Scope py_scope with py.
Notation "x <- c ;; k" := (bind c (fun x => k))
  (at level 100, c at next level, right associativity) : py_scope.
Notation "c ;;; k" := (bind c (fun _ => k))
  (at level 100, right associativity) : py_scope.

Open Scope py_scope.

(* ================================================================== *)
(** ** The source: [class RNNScratch] *)

Section Source.
Context {F : Type} `{Scalar F}.

(** [jnp.matmul(a, w)]: the call is entered, then the library checks its
    operands.  A tuple is not accepted as an operand. *)
Definition jnp_matmul (a : pyval F) (w : array F) : M F (array F) :=
  enter OpMatmul ;;;
  match a with
  | PyArr x => lift (matmul x w)
  | _ => raise MatmulOperandError
  end.

(** [a + b] on arrays. *)
Definition jnp_add (a b : array F) : M F (array F) :=
  enter OpAdd ;;; lift (add a b).

(** [jnp.tanh(a)] *)
Definition jnp_tanh (a : array F) : M F (array F) :=
  enter OpTanh ;;; ret (tanh a).

(** The body of [for X in inputs]:
<<
    state = jnp.tanh(jnp.matmul(X, self.W_xh) + (
        jnp.matmul(state, self.W_hh) if state is not None else 0)
                    + self.b_h)
>>
    in Python's evaluation order, left to right.  The literal [0] meets an
    array in [+] and is taken as a rank-0 array holding zero. *)
Definition loop_body (X : array F) (state : pyval F) : M F (array F) :=
  w_xh <- getattr (@W_xh F) ;;
  xw <- jnp_matmul (PyArr X) w_xh ;;
  hw <- (if negb (is_none state)
         then (w_hh <- getattr (@W_hh F) ;; jnp_matmul state w_hh)
         else ret (Arr0 fzero)) ;;
  s <- jnp_add xw hw ;;
  b <- getattr (@b_h F) ;;
  z <- jnp_add s b ;;
  jnp_tanh z.

(** [for X in inputs: state = ...; outputs.append(state)], followed by
    [return outputs, state]. *)
Fixpoint for_loop (inputs : list (array F)) (state : pyval F)
    (outputs : list (array F)) : M F (list (array F) * pyval F) :=
  match inputs with
  | [] => ret (outputs, state)
  | X :: rest =>
      s <- loop_body X state ;;
      for_loop rest (PyArr s) (outputs ++ [s])
  end.

(** [state, = state] *)
Definition unpack1 (v : pyval F) : M F (pyval F) :=
  match py_iter v with
  | Some [x] => ret x
  | _ => raise UnpackError
  end.

(** [RNNScratch.__call__(self, inputs, state=None)]; [inputs] is the
    sequence of the slices that [for X in inputs] yields. *)
Definition RNNScratch_call (inputs : list (array F)) (state : pyval F)
    : M F (list (array F) * pyval F) :=
  state <- (if negb (is_none state) then unpack1 state else ret state) ;;
  for_loop inputs state [].

(** *** Construction *)

(** What a constructor can raise. *)
Inductive init_exn : Type := ZeroDivisionError.

Section Init.
(** The draw of the [he_normal] initializer for a key and a position. *)
Variable sample : nat -> nat -> nat -> F.

(** [nnx.initializers.he_normal()(key, (r, c))]: the initializer scales its
    draws by the fan-in, which it computes from the shape by dividing by
    both dimensions; a dimension of 0 raises [ZeroDivisionError]. *)
Definition he_normal (key r c : nat) : init_exn + array F :=
  if (r =? 0) || (c =? 0) then inl ZeroDivisionError
  else inr (Arr2 c (map (fun i => map (fun j => sample key i j) (seq 0 c))
                        (seq 0 r))).

(** [nnx.initializers.zeros_init()(key, (n,))] *)
Definition zeros_init (key n : nat) : array F := Arr1 (repeat fzero n).

(** [RNNScratch.__init__]; [rngs] counts the keys drawn so far, and each
    [rngs()] draws the next one. *)
Definition RNNScratch_init (num_inputs num_hiddens rngs : nat)
    : init_exn + RNNScratch F :=
  match he_normal rngs num_inputs num_hiddens with
  | inl e => inl e
  | inr w_xh =>
      match he_normal (S rngs) num_hiddens num_hiddens with
      | inl e => inl e
      | inr w_hh =>
          inr {| W_xh := w_xh;
                 W_hh := w_hh;
                 b_h := zeros_init (S (S rngs)) num_hiddens;
                 num_hiddens := num_hiddens |}
      end
  end.
End Init.

(** [check_len(a, n)] and [check_shape(a, shape)]: the assertion holds. *)
Definition check_len {A} (a : list A) (n : nat) : bool := length a =? n.

Definition check_shape (a : array F) (sh : list nat) : bool :=
  if list_eq_dec Nat.eq_dec (shape a) sh then true else false.

End Source.

(* ================================================================== *)
(** ** The specification's reading of the recurrence *)

Section Specification.
Context {F : Type} `{Scalar F}.

Definition result_bind {A B} (r : result A) (k : A -> result B) : result B :=
  match r with
  | Ok a => k a
  | Raise e => Raise e
  end.

(** Specification, section 4.1: [next_state = tanh(x . W_xh + prev_state .
    W_hh + b_h)], the second term treated as zero when [prev_state] is
    absent. *)
Definition RecurrentCellStep (p : RNNScratch F) (x : array F)
    (prev_state : option (array F)) : result (array F) :=
  result_bind (matmul x (W_xh p)) (fun xw =>
  result_bind (match prev_state with
               | Some h => matmul h (W_hh p)
               | None => Ok (Arr0 fzero)
               end) (fun hw =>
  result_bind (add xw hw) (fun s =>
  result_bind (add s (b_h p)) (fun z =>
  Ok (tanh z))))).

(** Specification, section 4.1, sequence-level driver: [state] starts as the
    initial state (or absent); each step in order computes
    [state := RecurrentCellStep(step_input, state)] and appends [state] to
    the output sequence. *)
Definition driver_step (p : RNNScratch F)
    (acc : result (list (array F) * option (array F))) (x : array F)
    : result (list (array F) * option (array F)) :=
  result_bind acc (fun '(outputs, state) =>
  result_bind (RecurrentCellStep p x state) (fun s =>
  Ok (outputs ++ [s], Some s))).

Definition SequenceDriver (p : RNNScratch F) (inputs : list (array F))
    (initial_state : option (array F))
    : result (list (array F) * option (array F)) :=
  fold_left (driver_step p) inputs (Ok ([], initial_state)).

(** How the driver's two formats carry a hidden state: the argument wraps it
    in a 1-tuple, the returned value is the bare array. *)
Definition as_argument (st : option (array F)) : pyval F :=
  match st with
  | Some h => PyTuple [PyArr h]
  | None => PyNone
  end.

Definition as_returned (st : option (array F)) : pyval F :=
  match st with
  | Some h => PyArr h
  | None => PyNone
  end.

Definition returned (r : result (list (array F) * option (array F)))
    : result (list (array F) * pyval F) :=
  result_bind r (fun '(outputs, state) => Ok (outputs, as_returned state)).

(** The shapes [__init__] gives the three parameters. *)
Definition params_shaped (p : RNNScratch F) (input_dim hidden_dim : nat) : Prop :=
  shape (W_xh p) = [input_dim; hidden_dim] /\
  shape (W_hh p) = [hidden_dim; hidden_dim] /\
  shape (b_h p) = [hidden_dim] /\
  num_hiddens p = hidden_dim.

End Specification.

(* ================================================================== *)
(** ** Predicates of the statements *)

Section Predicates.
Context {F : Type} `{Scalar F}.

(** A computation that only reads the module object: from two machines that
    hold the same object it gives the same result, leaves the object as it
    was, and enters the same library calls. *)
Definition reads_only {A} (c : M F A) : Prop :=
  forall m m' : machine F, self m = self m' ->
    exists t,
      fst (c m) = fst (c m') /\
      snd (c m) = {| self := self m; trace := trace m ++ t |} /\
      snd (c m') = {| self := self m'; trace := trace m' ++ t |}.

Definition is_raise {A} (r : result A) : bool :=
  match r with Raise _ => true | Ok _ => false end.

Definition is_matmul (o : op) : bool :=
  match o with OpMatmul => true | _ => false end.

(** The library calls a step has entered when a product raises: the
    product with [W_xh] alone when the input does not fit, both products
    when the input fits and the state does not. *)
Definition ops_until_mismatch (input_fits : bool) : list op :=
  if input_fits then [OpMatmul; OpMatmul] else [OpMatmul].

(** The outcome of a run that raised before any [jnp.matmul] was entered. *)
Definition raised_before_matmul {A} (r : result A * machine F) : bool :=
  is_raise (fst r) && negb (existsb is_matmul (trace (snd r))).

(** An optional hidden state of shape [(batch_size, hidden_dim)]. *)
Definition state_shaped (st : option (array F)) (batch_size hidden_dim : nat) : Prop :=
  match st with
  | Some h => shape h = [batch_size; hidden_dim]
  | None => True
  end.

(** [outs] lists the states of successive steps over [inputs], started from
    [state]: each is the result of the loop body on the matching input and
    the state before it. *)
Fixpoint chained (p : RNNScratch F) (state : pyval F)
    (inputs outs : list (array F)) : Prop :=
  match inputs, outs with
  | [], [] => True
  | X :: xs, s :: ss =>
      fst (loop_body X state {| self := p; trace := [] |}) = Ok s /\
      chained p (PyArr s) xs ss
  | _, _ => False
  end.

(** An operand that broadcasts against shape [(b, h)] without changing it:
    padded to rank 2, each of its dimensions is the target's or 1. *)
Definition broadcasts_to (o : array F) (b h : nat) : Prop :=
  (fst (atleast_2d o) = h \/ fst (atleast_2d o) = 1) /\
  (length (snd (atleast_2d o)) = b \/ length (snd (atleast_2d o)) = 1) /\
  Forall (fun r => length r = fst (atleast_2d o)) (snd (atleast_2d o)).

End Predicates.

(* ================================================================== *)
(** ** A concrete element type and the notebook's example *)

(** Integers, with the sign function in the place of [tanh], to run the
    definitions on concrete inputs. *)
#[export] Instance Z_scalar : Scalar Z := {
  fzero := 0%Z;
  fadd := Z.add;
  fmul := Z.mul;
  ftanh := Z.sgn
}.

#[export] Instance Z_exact : ExactScalar Z.
Proof. split; intros a; simpl; lia. Qed.

Module Notebook.

(** A cell with 2 inputs and 3 hidden units and fixed integer weights. *)
Definition rnn : RNNScratch Z :=
  {| W_xh := Arr2 3 [[1; -2; 0]; [0; 1; 3]]%Z;
     W_hh := Arr2 3 [[1; 0; 0]; [0; -1; 0]; [2; 0; 1]]%Z;
     b_h := Arr1 [0; 0; -5]%Z;
     num_hiddens := 3 |}.

(** [batch_size, num_inputs, num_hiddens, num_steps = 2, 2, 3, 2] *)
Definition batch_size := 2.
Definition num_inputs := 2.
Definition num_hiddens := 3.
Definition num_steps := 2.

(** [X = jnp.ones((num_steps, batch_size, num_inputs))] *)
Definition X : list (array Z) :=
  repeat (Arr2 num_inputs (repeat (repeat 1%Z num_inputs) batch_size)) num_steps.

(** An input whose feature dimension is 5. *)
Definition X5 : array Z := Arr2 5 (repeat (repeat 1%Z 5) batch_size).

(** A hidden state whose second dimension is 4. *)
Definition H4 : array Z := Arr2 4 (repeat (repeat 0%Z 4) batch_size).

Definition start : machine Z := {| self := rnn; trace := [] |}.

(** The same object after earlier calls. *)
Definition later : machine Z := {| self := rnn; trace := [OpMatmul; OpAdd; OpAdd; OpTanh] |}.

(** [outputs, state = rnn(X)] *)
Definition outputs : list (array Z) :=
  [Arr2 3 [[1; -1; -1]; [1; -1; -1]]%Z; Arr2 3 [[0; 0; -1]; [0; 0; -1]]%Z].

Definition state : pyval Z := PyArr (Arr2 3 [[0; 0; -1]; [0; 0; -1]]%Z).

Definition after_call : machine Z :=
  {| self := rnn;
     trace := [OpMatmul; OpAdd; OpAdd; OpTanh; OpMatmul; OpMatmul; OpAdd; OpAdd; OpTanh] |}.

(** The draws of an initializer, fixed for the example. *)
Definition sample (key i j : nat) : Z := Z.of_nat (key + i + j).

End Notebook.

(* ================================================================== *)
(** ** Using the cell across calls *)

Section Use.
Context {F : Type} `{Scalar F}.

(** What a caller does with a returned state before the next call: [None]
    stays [None], anything else goes into a 1-tuple. *)
Definition hand_back (v : pyval F) : pyval F :=
  if is_none v then PyNone else PyTuple [v].

(** Two calls in a row, the second started from the state the first
    returned:
<<
    outputs1, state = rnn(xs, state)
    outputs2, state = rnn(ys, (state,))
>>
    with the two output lists joined. *)
Definition call_in_two (xs ys : list (array F)) (state : pyval F)
    : M F (list (array F) * pyval F) :=
  r1 <- RNNScratch_call xs state ;;
  r2 <- RNNScratch_call ys (hand_back (snd r1)) ;;
  ret (fst r1 ++ fst r2, snd r2).

(** The library calls one pass of the loop body enters when none raises:
    the product with [W_hh] is there only when there is a state. *)
Definition step_ops (with_state : bool) : list op :=
  if with_state
  then [OpMatmul; OpMatmul; OpAdd; OpAdd; OpTanh]
  else [OpMatmul; OpAdd; OpAdd; OpTanh].

(** The library calls of [T] passes, the first with or without a state. *)
Definition call_ops (with_state : bool) (T : nat) : list op :=
  match T with
  | 0 => []
  | S n => step_ops with_state ++ concat (repeat (step_ops true) n)
  end.

Definition has_state (st : option (array F)) : bool :=
  match st with Some _ => true | None => false end.

(** Adding to the outputs gathered so far. *)
Definition onto (acc : list (array F)) (r : result (list (array F) * pyval F))
    : result (list (array F) * pyval F) :=
  match r with
  | Ok (o, s) => Ok (acc ++ o, s)
  | Raise e => Raise e
  end.

End Use.

(* ================================================================== *)
(** ** The language model's wrapper: [class RNNLMScratch] *)

(** The element that [jax.nn.one_hot] writes at the index of a token. *)
Class UnitScalar (F : Type) `{Scalar F} : Type := {
  fone : F
}.
Arguments UnitScalar F {_}.

(** Further laws of exact arithmetic: zero is neutral on the left, one is
    neutral for multiplication. *)
Class ExactUnitScalar (F : Type) `{UnitScalar F} : Prop := {
  fadd_0_l : forall a : F, fadd fzero a = a;
  fmul_1_l : forall a : F, fmul fone a = a
}.
Arguments ExactUnitScalar F {_ _}.

(** A rank-2 array of token indices, of shape [(length t_rows, t_ncols)]. *)
Record tokens : Type := {
  t_ncols : nat;
  t_rows : list (list Z)
}.

(** Every row has [t_ncols] tokens. *)
Definition tokens_rectangular (X : tokens) : Prop :=
  Forall (fun r => length r = t_ncols X) (t_rows X).

(** [X.T] *)
Definition tokens_T (X : tokens) : tokens :=
  {| t_ncols := length (t_rows X);
     t_rows := map (fun j => map (fun r => nth j r 0%Z) (t_rows X))
                   (seq 0 (t_ncols X)) |}.

(** The value an integer takes when it is stored as a 32-bit signed
    integer, as [jnp.asarray] stores an array of 64-bit tokens (64-bit types
    are off by default): wrap-around modulo [2^32]. *)
Definition int32 (t : Z) : Z :=
  ((t + 2147483648) mod 4294967296 - 2147483648)%Z.

Section LanguageModel.
Context {F : Type} {SF : Scalar F} {UF : UnitScalar F}.

(** The encoding of one token, [token == jnp.arange(num_classes)] as
    floats.  The library holds the tokens as 32-bit integers, so the token
    is compared by its [int32] value (for [num_classes] up to [2^31], the
    range of the indices): a value outside [0, num_classes) gives all
    zeros. *)
Definition one_hot_vec (num_classes : nat) (token : Z) : list F :=
  map (fun k => if (Z.of_nat k =? int32 token)%Z then fone else fzero)
      (seq 0 num_classes).

(** [jax.nn.one_hot(x, num_classes)] on a rank-2 [x]: the rank-3 result as
    the list of its slices along the first axis, each of shape
    [(t_ncols x, num_classes)]. *)
Definition jax_nn_one_hot (x : tokens) (num_classes : nat) : list (array F) :=
  map (fun r => Arr2 num_classes (map (one_hot_vec num_classes) r)) (t_rows x).

(** The attributes [RNNLMScratch.__init__] sets on [self]. *)
Record RNNLMScratch : Type := {
  W_hq : array F;
  b_q : array F;
  vocab_size : nat
}.

(** [RNNLMScratch.__init__(self, rnn, vocab_size, rngs)] *)
Definition RNNLMScratch_init (sample : nat -> nat -> nat -> F)
    (rnn : RNNScratch F) (vocab_size rngs : nat) : init_exn + RNNLMScratch :=
  match he_normal sample rngs (num_hiddens rnn) vocab_size with
  | inl e => inl e
  | inr w_hq =>
      inr {| W_hq := w_hq;
             b_q := zeros_init (S rngs) vocab_size;
             vocab_size := vocab_size |}
  end.

(** [RNNLMScratch.one_hot(self, X)]:
    [return jax.nn.one_hot(X.T, self.vocab_size)] *)
Definition RNNLMScratch_one_hot (self : RNNLMScratch) (X : tokens)
    : list (array F) :=
  jax_nn_one_hot (tokens_T X) (vocab_size self).

(** The row of a weight matrix that a token selects: the row at the token's
    [int32] value when that is in range, zeros otherwise. *)
Definition selected_row (h : nat) (w : list (list F)) (token : Z) : list F :=
  if ((0 <=? int32 token)%Z && (int32 token <? Z.of_nat (length w))%Z)%bool
  then nth (Z.to_nat (int32 token)) w []
  else repeat fzero h.

End LanguageModel.

Arguments RNNLMScratch F : clear implicits.

(* ================================================================== *)
(** ** Synthetic regression data: [gen_reg_data] *)

Section Regression.
Context {F : Type} `{Scalar F}.

(** An error of [gen_reg_data]: [w.shape[0]] on a rank-0 array, or an error
    of a library call. *)
Inductive gen_error : Type :=
| ShapeIndexError
| LibraryError (e : exn).

(** The draw of the standard normal for a seed, the number of the key taken
    from the seed stream, and a position. *)
Variable draw : nat -> nat -> nat -> nat -> F.

(** [normal.sample((r, c), seed=key())], for the [count]-th key of the
    stream. *)
Definition normal_sample (seed count r c : nat) : array F :=
  Arr2 c (map (fun i => map (fun j => draw seed count i j) (seq 0 c)) (seq 0 r)).

(** [a * s] for a Python number [s], element by element. *)
Definition scale (a : array F) (s : F) : array F :=
  match a with
  | Arr0 x => Arr0 (fmul x s)
  | Arr1 v => Arr1 (map (fun e => fmul e s) v)
  | Arr2 c rows => Arr2 c (map (map (fun e => fmul e s)) rows)
  end.

(** [jnp.reshape(w, (-1, 1))]: the entries in row-major order, one per row. *)
Definition reshape_column (w : array F) : array F :=
  Arr2 1 (map (fun e => [e]) (entries w)).

Definition lib {A} (r : result A) : gen_error + A :=
  match r with
  | Ok a => inr a
  | Raise e => inl (LibraryError e)
  end.

(** [gen_reg_data(w, b, seed, noise, n)]:
<<
    key = tfp.util.SeedStream(seed, salt="gen_reg_data")
    normal = tfd.Normal(loc=0.0, scale=1.0)
    X = normal.sample((n, w.shape[0]), seed=key())
    noise = normal.sample((n, 1), seed=key()) * noise
    return X, jnp.matmul(X, jnp.reshape(w, (-1, 1))) + b + noise
>>
    [noise] and [n] are passed explicitly (the source defaults them to 0.01
    and 1000). *)
Definition gen_reg_data (w : array F) (b : F) (seed : nat) (noise : F) (n : nat)
    : gen_error + (array F * array F) :=
  match shape w with
  | [] => inl ShapeIndexError
  | d :: _ =>
      let X := normal_sample seed 0 n d in
      let noise' := scale (normal_sample seed 1 n 1) noise in
      lib (result_bind (matmul X (reshape_column w)) (fun xw =>
           result_bind (add xw (Arr0 b)) (fun s =>
           result_bind (add s noise') (fun y =>
           Ok (X, y)))))
  end.

End Regression.

(* ================================================================== *)
(** ** Concrete tokens and draws *)

#[export] Instance Z_unit : UnitScalar Z := { fone := 1%Z }.

#[export] Instance Z_exact_unit : ExactUnitScalar Z.
Proof. split; intros a; [exact (Z.add_0_l a) | exact (Z.mul_1_l a)]. Qed.

Module Corpus.

(** A minibatch of 2 sequences of 3 tokens over a vocabulary of 5. *)
Definition X : tokens := {| t_ncols := 3; t_rows := [[0; 2; 1]; [1; 1; 4]]%Z |}.

(** The cell [RNNScratch(5, 3, rngs)] and the language model
    [RNNLMScratch(rnn, 5, rngs)] that the constructors build from the
    example's draws. *)
Definition rnn : RNNScratch Z :=
  {| W_xh := Arr2 3 [[0; 1; 2]; [1; 2; 3]; [2; 3; 4]; [3; 4; 5]; [4; 5; 6]]%Z;
     W_hh := Arr2 3 [[1; 2; 3]; [2; 3; 4]; [3; 4; 5]]%Z;
     b_h := Arr1 [0; 0; 0]%Z;
     num_hiddens := 3 |}.

Definition model : RNNLMScratch Z :=
  {| W_hq := Arr2 5 [[3; 4; 5; 6; 7]; [4; 5; 6; 7; 8]; [5; 6; 7; 8; 9]]%Z;
     b_q := Arr1 [0; 0; 0; 0; 0]%Z;
     vocab_size := 5 |}.

Definition vocab_size := 5.

(** The draws of the normal, fixed for the example. *)
Definition draw (seed count i j : nat) : Z := Z.of_nat (seed + count + 2 * i + j).

(** One input of the notebook's run, [jnp.ones((2, 2))]. *)
Definition ones : array Z := Arr2 2 [[1; 1]; [1; 1]]%Z.

(** The rows of [W_xh] of [rnn]. *)
Definition w_xh : list (list Z) :=
  [[0; 1; 2]; [1; 2; 3]; [2; 3; 4]; [3; 4; 5]; [4; 5; 6]]%Z.

End Corpus.

(* ================================================================== *)
(** ** IEEE arithmetic *)

(** [jnp.tanh] is not among the kernel's float operations.  This clamp to
    [[-1, 1]] stands in for it where the definitions are run on floats:
    like [tanh] it is odd, increasing, bounded by 1, and it returns [nan]
    for [nan]. *)
Definition clamp (x : PrimFloat.float) : PrimFloat.float :=
  if PrimFloat.ltb x (PrimFloat.opp PrimFloat.one)
  then PrimFloat.opp PrimFloat.one
  else if PrimFloat.ltb PrimFloat.one x then PrimFloat.one else x.

(** The kernel's binary64 floats with IEEE addition and multiplication.
    The notebook computes in binary32; the two agree on what is used here,
    that [0 * infinity] is [nan] and that [nan] is absorbing. *)
#[export] Instance float_scalar : Scalar PrimFloat.float := {
  fzero := PrimFloat.zero;
  fadd := PrimFloat.add;
  fmul := PrimFloat.mul;
  ftanh := clamp
}.

(** [(a == b).all()]: the same shape and every pair of entries equal as
    IEEE numbers. *)
Definition all_equal (a b : array PrimFloat.float) : bool :=
  (if list_eq_dec Nat.eq_dec (shape a) (shape b) then true else false)
  && forallb (fun p => PrimFloat.eqb (fst p) (snd p))
       (combine (entries a) (entries b)).

(** [==] on two outcomes of a step: two returned arrays that are
    [all_equal]. *)
Definition steps_equal (r1 r2 : result (array PrimFloat.float)) : bool :=
  match r1, r2 with
  | Ok a, Ok b => all_equal a b
  | _, _ => false
  end.

Module Ieee.

(** A cell with 2 inputs and 3 hidden units, one of whose hidden-to-hidden
    weights has overflowed to infinity. *)
Definition rnn : RNNScratch PrimFloat.float :=
  {| W_xh := Arr2 3 [[PrimFloat.one; PrimFloat.zero; PrimFloat.zero];
                     [PrimFloat.zero; PrimFloat.zero; PrimFloat.zero]];
     W_hh := Arr2 3 [[PrimFloat.infinity; PrimFloat.zero; PrimFloat.zero];
                     [PrimFloat.zero; PrimFloat.zero; PrimFloat.zero];
                     [PrimFloat.zero; PrimFloat.zero; PrimFloat.zero]];
     b_h := Arr1 [PrimFloat.zero; PrimFloat.zero; PrimFloat.zero];
     num_hiddens := 3 |}.

(** [jnp.ones((1, 2))] *)
Definition x : array PrimFloat.float := Arr2 2 [[PrimFloat.one; PrimFloat.one]].

Definition start : machine PrimFloat.float := {| self := rnn; trace := [] |}.

End Ieee.

(* ================================================================== *)
(** ** Lists, shapes and broadcasting *)

Section ListFacts.
Context {A B C : Type}.

Lemma zip_with_length (f : A -> B -> C) l1 l2 :
  length (zip_with f l1 l2) = Nat.min (length l1) (length l2).
Proof. unfold zip_with. now rewrite length_map, length_combine. Qed.

Lemma zip_with_in (f : A -> B -> C) l1 l2 z :
  In z (zip_with f l1 l2) -> exists u v, In u l1 /\ In v l2 /\ z = f u v.
Proof.
  unfold zip_with. rewrite in_map_iff. intros [[u v] [E I]].
  exists u, v. split; [|split].
  - eapply in_combine_l; eauto.
  - eapply in_combine_r; eauto.
  - now subst.
Qed.

Lemma zip_with_repeat_r (f : A -> B -> C) l y n :
  length l = n -> zip_with f l (repeat y n) = map (fun x => f x y) l.
Proof.
  intros <-. unfold zip_with. induction l as [|x l IH]; simpl; [reflexivity|].
  now rewrite IH.
Qed.

Lemma stretch_same n (l : list A) : length l = n -> stretch n l = l.
Proof. intros E. unfold stretch. now rewrite E, Nat.eqb_refl. Qed.

Lemma stretch_single n (x : A) : stretch n [x] = repeat x n.
Proof.
  unfold stretch. change (length [x]) with 1.
  destruct (Nat.eqb_spec 1 n) as [<-|]; reflexivity.
Qed.

Lemma stretch_length n (l : list A) :
  length l = n \/ length l = 1 -> length (stretch n l) = n.
Proof.
  intros [E|E].
  - now rewrite stretch_same.
  - destruct l as [|x [|y l]]; try discriminate.
    now rewrite stretch_single, repeat_length.
Qed.

Lemma stretch_in n (l : list A) u : In u (stretch n l) -> In u l.
Proof.
  unfold stretch. destruct (length l =? n); [easy|].
  destruct l as [|x [|y l]]; try easy.
  intros I. apply repeat_spec in I. subst. now left.
Qed.

Lemma last_cons (l : list A) : forall x d, last (x :: l) d = last l x.
Proof.
  induction l as [|y l IH]; intros x d; [reflexivity|].
  change (last (y :: l) d = last (y :: l) x). now rewrite !IH.
Qed.

End ListFacts.

Lemma bdim_same a : bdim a a = Some a.
Proof. unfold bdim. now rewrite Nat.eqb_refl. Qed.

Lemma bdim_fits a b : b = a \/ b = 1 -> bdim a b = Some a.
Proof.
  intros [->| ->]; [apply bdim_same|]. unfold bdim.
  destruct (Nat.eqb_spec a 1) as [->|]; [reflexivity|].
  reflexivity.
Qed.

Section Shapes.
Context {F : Type} `{Scalar F}.

Lemma shape_rank2 (a : array F) b c :
  shape a = [b; c] -> exists rows, a = Arr2 c rows /\ length rows = b.
Proof.
  destruct a as [x|v|c' rows]; simpl; intros E; try discriminate.
  injection E as E1 E2. subst. now exists rows.
Qed.

Lemma shape_rank1 (a : array F) n :
  shape a = [n] -> exists v, a = Arr1 v /\ length v = n.
Proof.
  destruct a as [x|v|c' rows]; simpl; intros E; try discriminate.
  injection E as E1. now exists v.
Qed.

Lemma vecmat_length c (v : list F) w : length (vecmat c v w) = c.
Proof. unfold vecmat. now rewrite length_map, length_seq. Qed.

Lemma matmul_shape (x w : array F) b k h :
  shape x = [b; k] -> shape w = [k; h] ->
  exists r, matmul x w = Ok r /\ shape r = [b; h] /\ rectangular r.
Proof.
  intros Hx Hw.
  destruct (shape_rank2 _ Hx) as [rows [-> Lx]].
  destruct (shape_rank2 _ Hw) as [wr [-> Lw]].
  simpl. rewrite Lw, Nat.eqb_refl.
  eexists; split; [reflexivity|]. simpl. split.
  - now rewrite length_map, Lx.
  - apply Forall_forall. intros r I. apply in_map_iff in I.
    destruct I as [u [<- _]]. apply vecmat_length.
Qed.

Lemma matmul_mismatch (x w : array F) b k k' h :
  shape x = [b; k] -> shape w = [k'; h] -> k <> k' ->
  matmul x w = Raise MatmulShapeError.
Proof.
  intros Hx Hw N.
  destruct (shape_rank2 _ Hx) as [rows [-> Lx]].
  destruct (shape_rank2 _ Hw) as [wr [-> Lw]].
  simpl. rewrite Lw. destruct (Nat.eqb_spec k k'); [contradiction|reflexivity].
Qed.

Lemma add_vec_length n (u v : list F) :
  length u = n \/ length u = 1 -> length v = n \/ length v = 1 ->
  length (add_vec n u v) = n.
Proof.
  intros Hu Hv. unfold add_vec.
  rewrite zip_with_length, !stretch_length by assumption. apply Nat.min_id.
Qed.

Lemma add_shape (a o : array F) b h :
  shape a = [b; h] -> rectangular a -> broadcasts_to o b h ->
  exists r, add a o = Ok r /\ shape r = [b; h] /\ rectangular r.
Proof.
  intros Ha Ra (Hc & Hr & Ro).
  destruct (shape_rank2 _ Ha) as [rows [-> La]].
  unfold add. cbn [atleast_2d].
  destruct (atleast_2d o) as [c2 r2] eqn:Eo. cbn [fst snd] in *.
  rewrite (bdim_fits Hc), La, (bdim_fits Hr).
  replace (Nat.max (rank (Arr2 h rows)) (rank o)) with 2
    by (destruct o; reflexivity).
  eexists; split; [reflexivity|]. cbn [of_rows shape rectangular]. split.
  - rewrite zip_with_length, !stretch_length by auto. now rewrite Nat.min_id.
  - apply Forall_forall. intros z I.
    apply zip_with_in in I. destruct I as (u & v & Iu & Iv & ->).
    apply stretch_in in Iu. apply stretch_in in Iv.
    simpl in Ra. rewrite Forall_forall in Ra, Ro.
    apply add_vec_length.
    + left. now apply Ra.
    + rewrite (Ro _ Iv). destruct Hc; auto.
Qed.

Lemma tanh_shape (a : array F) : shape (tanh a) = shape a.
Proof. destruct a; simpl; now rewrite ?length_map. Qed.

Lemma tanh_rectangular (a : array F) : rectangular a -> rectangular (tanh a).
Proof.
  destruct a as [x|v|c rows]; simpl; trivial.
  intros R. apply Forall_forall. intros r I. apply in_map_iff in I.
  destruct I as [u [<- Iu]]. rewrite length_map.
  rewrite Forall_forall in R. now apply R.
Qed.

Lemma scalar_broadcasts (z : F) b h : broadcasts_to (Arr0 z) b h.
Proof. repeat split; simpl; auto. Qed.

Lemma bias_broadcasts (a : array F) b h : shape a = [h] -> broadcasts_to a b h.
Proof.
  intros E. destruct (shape_rank1 _ E) as [v [-> L]].
  repeat split; simpl; auto.
Qed.

Lemma same_shape_broadcasts (a : array F) b h :
  shape a = [b; h] -> rectangular a -> broadcasts_to a b h.
Proof.
  intros E R. destruct (shape_rank2 _ E) as [rows [-> L]].
  repeat split; simpl; auto.
Qed.

End Shapes.

(* ================================================================== *)
(** ** The interpreter monad *)

Create HintDb reads.

Ltac run :=
  unfold RNNScratch_call, unpack1, loop_body, jnp_tanh, jnp_add, jnp_matmul,
    bind, getattr, enter, lift, ret, raise; cbn [fst snd self trace].

Section Reads.
Context {F : Type} `{Scalar F}.

Lemma reads_only_ret {A} (a : A) : reads_only (ret a : M F A).
Proof.
  intros m m' E. exists []. unfold ret; simpl. rewrite !app_nil_r.
  destruct m, m'; auto.
Qed.

Lemma reads_only_lift {A} (r : result A) : reads_only (lift r : M F A).
Proof.
  intros m m' E. exists []. unfold lift; simpl. rewrite !app_nil_r.
  destruct m, m'; auto.
Qed.

Lemma reads_only_raise {A} e : reads_only (raise e : M F A).
Proof. apply (reads_only_lift (Raise e)). Qed.

Lemma reads_only_getattr {A} (f : RNNScratch F -> A) : reads_only (getattr f).
Proof.
  intros m m' E. exists []. unfold getattr; simpl. rewrite !app_nil_r.
  destruct m, m'; simpl in *; subst; auto.
Qed.

Lemma reads_only_enter o : reads_only (enter o : M F unit).
Proof. intros m m' E. exists [o]. unfold enter; simpl. auto. Qed.

Lemma reads_only_bind {A B} (c : M F A) (k : A -> M F B) :
  reads_only c -> (forall a, reads_only (k a)) -> reads_only (bind c k).
Proof.
  intros Hc Hk m m' E. destruct (Hc m m' E) as (t & Er & Em & Em').
  unfold bind. destruct (c m) as [r m1], (c m') as [r' m1'].
  simpl in Er, Em, Em'. subst r' m1 m1'.
  destruct r as [a|e].
  - destruct (Hk a {| self := self m; trace := trace m ++ t |}
                   {| self := self m'; trace := trace m' ++ t |} E)
      as (t2 & Er2 & Em2 & Em2').
    exists (t ++ t2). rewrite !app_assoc. simpl in Em2, Em2'. auto.
  - exists t. auto.
Qed.

#[local] Hint Resolve reads_only_ret reads_only_lift reads_only_raise
  reads_only_getattr reads_only_enter : reads.

Lemma reads_only_jnp_matmul a w : reads_only (jnp_matmul a w).
Proof.
  unfold jnp_matmul. apply reads_only_bind; auto with reads.
  intros _. destruct a; auto with reads.
Qed.

Lemma reads_only_jnp_add a b : reads_only (jnp_add a b).
Proof. unfold jnp_add. apply reads_only_bind; auto with reads. Qed.

Lemma reads_only_jnp_tanh a : reads_only (jnp_tanh a).
Proof. unfold jnp_tanh. apply reads_only_bind; auto with reads. Qed.

#[local] Hint Resolve reads_only_jnp_matmul reads_only_jnp_add reads_only_jnp_tanh : reads.

Lemma reads_only_loop_body (X : array F) state : reads_only (loop_body X state).
Proof.
  unfold loop_body.
  repeat (apply reads_only_bind; [|intros ?]); auto with reads.
  destruct (negb (is_none state)); auto with reads.
  apply reads_only_bind; auto with reads.
Qed.

Lemma reads_only_for_loop (inputs : list (array F)) :
  forall state outputs, reads_only (for_loop inputs state outputs).
Proof.
  induction inputs as [|X rest IH]; intros state outputs; simpl.
  - auto with reads.
  - apply reads_only_bind; [apply reads_only_loop_body|]. intros s. apply IH.
Qed.

Lemma reads_only_unpack1 (v : pyval F) : reads_only (unpack1 v).
Proof.
  unfold unpack1. destruct (py_iter v) as [[|x [|y l]]|]; auto with reads.
Qed.

Lemma reads_only_call (inputs : list (array F)) state : reads_only (RNNScratch_call inputs state).
Proof.
  unfold RNNScratch_call. apply reads_only_bind.
  - destruct (negb (is_none state)); auto using reads_only_unpack1 with reads.
  - intros st. apply reads_only_for_loop.
Qed.

Lemma reads_only_self {A} (c : M F A) m : reads_only c -> self (snd (c m)) = self m.
Proof.
  intros Hc. destruct (Hc m m eq_refl) as (t & _ & E & _). now rewrite E.
Qed.

Lemma reads_only_result {A} (c : M F A) m m' :
  reads_only c -> self m = self m' -> fst (c m) = fst (c m').
Proof. intros Hc E. destruct (Hc m m' E) as (t & Er & _). exact Er. Qed.

End Reads.

(* ================================================================== *)
(** ** The loop body and the loop *)

Section Loop.
Context {F : Type} `{Scalar F}.

Lemma loop_body_result (X : array F) st m :
  fst (loop_body X (as_returned st) m) = RecurrentCellStep (self m) X st.
Proof.
  unfold RecurrentCellStep. run.
  destruct (matmul X (W_xh (self m))) as [xw|e]; simpl; [|reflexivity].
  destruct st as [h|]; simpl.
  - destruct (matmul h (W_hh (self m))) as [hw|e]; simpl; [|reflexivity].
    destruct (add xw hw) as [s|e]; simpl; [|reflexivity].
    destruct (add s (b_h (self m))) as [z|e]; reflexivity.
  - destruct (add xw (Arr0 fzero)) as [s|e]; simpl; [|reflexivity].
    destruct (add s (b_h (self m))) as [z|e]; reflexivity.
Qed.

Lemma loop_body_any_trace (X : array F) state m :
  fst (loop_body X state m) = fst (loop_body X state {| self := self m; trace := [] |}).
Proof. apply reads_only_result; [apply reads_only_loop_body|reflexivity]. Qed.

Lemma driver_raise (p : RNNScratch F) inputs e :
  fold_left (driver_step p) inputs (Raise e) = Raise e.
Proof. induction inputs as [|X rest IH]; simpl; auto. Qed.

Lemma for_loop_result (inputs : list (array F)) :
  forall st outputs m,
    fst (for_loop inputs (as_returned st) outputs m)
    = returned (fold_left (driver_step (self m)) inputs (Ok (outputs, st))).
Proof.
  induction inputs as [|X rest IH]; intros st outputs m; simpl.
  - reflexivity.
  - unfold bind.
    pose proof (loop_body_result X st m) as E.
    pose proof (reads_only_self m (reads_only_loop_body X (as_returned st))) as S.
    destruct (loop_body X (as_returned st) m) as [[s|e] m1]; simpl in E, S;
      rewrite <- E; simpl.
    + rewrite <- S. apply (IH (Some s)).
    + now rewrite driver_raise.
Qed.

Lemma call_unpacked (inputs : list (array F)) h m :
  RNNScratch_call inputs (PyTuple [h]) m = for_loop inputs h [] m.
Proof. reflexivity. Qed.

Lemma call_none (inputs : list (array F)) m :
  RNNScratch_call inputs PyNone m = for_loop inputs PyNone [] m.
Proof. reflexivity. Qed.

Lemma call_as_argument (inputs : list (array F)) st m :
  RNNScratch_call inputs (as_argument st) m = for_loop inputs (as_returned st) [] m.
Proof. destruct st; reflexivity. Qed.

Lemma for_loop_outputs (inputs : list (array F)) :
  forall state acc m outs fin m',
    for_loop inputs state acc m = (Ok (outs, fin), m') ->
    exists news,
      outs = acc ++ news /\ length news = length inputs /\
      fin = last (map (@PyArr F) news) state /\
      chained (self m) state inputs news.
Proof.
  induction inputs as [|X rest IH]; intros state acc m outs fin m'; simpl.
  - unfold ret. intros E. injection E as <- <- <-.
    exists []. now rewrite app_nil_r.
  - unfold bind.
    pose proof (loop_body_any_trace X state m) as T.
    pose proof (reads_only_self m (reads_only_loop_body X state)) as S.
    destruct (loop_body X state m) as [[s|e] m1]; simpl in T, S; [|discriminate].
    intros E. apply IH in E. destruct E as (news & -> & L & -> & C).
    exists (s :: news). rewrite <- app_assoc. simpl.
    repeat split; auto.
    + exact (eq_sym (last_cons (map (@PyArr F) news) (PyArr s) state)).
    + now rewrite <- S.
Qed.

Lemma last_map_cons (news : list (array F)) state d :
  news <> [] -> last (map (@PyArr F) news) state = PyArr (last news d).
Proof.
  induction news as [|s [|s' news] IH]; intros N; [contradiction| reflexivity |].
  change (last (map (@PyArr F) (s' :: news)) state = PyArr (last (s' :: news) d)).
  apply IH. discriminate.
Qed.

Lemma chained_step (p : RNNScratch F) (inputs : list (array F)) :
  forall state outs i d,
    chained p state inputs outs -> S i < length inputs ->
    RecurrentCellStep p (nth (S i) inputs d) (Some (nth i outs d))
    = Ok (nth (S i) outs d).
Proof.
  induction inputs as [|X rest IH]; intros state outs i d C L; simpl in L; [lia|].
  destruct outs as [|s ss]; [contradiction|]. destruct C as [_ C].
  destruct i as [|i].
  - destruct rest as [|X' rest']; simpl in L; [lia|].
    destruct ss as [|s' ss']; [contradiction|]. destruct C as [E _].
    simpl. rewrite <- E.
    exact (eq_sym (loop_body_result X' (Some s) {| self := p; trace := [] |})).
  - apply (IH (PyArr s) ss i d C). lia.
Qed.

Lemma check_shape_true (a : array F) sh : check_shape a sh = true <-> shape a = sh.
Proof.
  unfold check_shape. destruct (list_eq_dec Nat.eq_dec (shape a) sh); split;
    congruence.
Qed.

Lemma loop_body_shape (X : array F) st m input_dim hidden_dim batch_size :
  params_shaped (self m) input_dim hidden_dim ->
  shape X = [batch_size; input_dim] ->
  state_shaped st batch_size hidden_dim ->
  exists s, fst (loop_body X (as_returned st) m) = Ok s /\
            shape s = [batch_size; hidden_dim] /\ rectangular s.
Proof.
  intros (Pxh & Phh & Pb & _) HX Hst.
  rewrite loop_body_result. unfold RecurrentCellStep.
  destruct (matmul_shape _ _ HX Pxh) as (xw & -> & Sxw & Rxw). simpl.
  assert (exists hw, match st with
                     | Some h => matmul h (W_hh (self m))
                     | None => Ok (Arr0 fzero)
                     end = Ok hw /\ broadcasts_to hw batch_size hidden_dim)
    as (hw & -> & Bhw).
  { destruct st as [h|]; simpl in Hst.
    - destruct (matmul_shape _ _ Hst Phh) as (hw & -> & Shw & Rhw).
      exists hw. split; [reflexivity|]. now apply same_shape_broadcasts.
    - eexists; split; [reflexivity|]. apply scalar_broadcasts. }
  simpl.
  destruct (add_shape _ Sxw Rxw Bhw) as (s & -> & Ss & Rs). simpl.
  destruct (add_shape _ Ss Rs (bias_broadcasts _ batch_size Pb)) as (z & -> & Sz & Rz).
  simpl. eexists; split; [reflexivity|].
  split; [now rewrite tanh_shape | now apply tanh_rectangular].
Qed.

Lemma for_loop_shape (inputs : list (array F)) input_dim hidden_dim batch_size :
  forall st acc m,
    params_shaped (self m) input_dim hidden_dim ->
    Forall (fun X => shape X = [batch_size; input_dim]) inputs ->
    state_shaped st batch_size hidden_dim ->
    Forall (fun s => shape s = [batch_size; hidden_dim]) acc ->
    exists outs fin m',
      for_loop inputs (as_returned st) acc m = (Ok (outs, as_returned fin), m') /\
      length outs = length acc + length inputs /\
      Forall (fun s => shape s = [batch_size; hidden_dim]) outs /\
      state_shaped fin batch_size hidden_dim /\
      self m' = self m.
Proof.
  induction inputs as [|X rest IH]; intros st acc m P HI Hst Hacc; simpl.
  - exists acc, st, m. repeat split; auto.
  - inversion HI as [|? ? HX HR]; subst.
    destruct (loop_body_shape X st m P HX Hst) as (s & E & Ss & _).
    pose proof (reads_only_self m (reads_only_loop_body X (as_returned st))) as S.
    unfold bind. destruct (loop_body X (as_returned st) m) as [r m1].
    simpl in E, S. subst r.
    rewrite <- S in P.
    destruct (IH (Some s) (acc ++ [s]) m1 P HR Ss) as (outs & fin & m' & E & L & Fo & Fs & Sm).
    { apply Forall_app. split; auto. }
    exists outs, fin, m'. split; [exact E|]. repeat split; auto.
    + rewrite L, length_app. simpl. lia.
    + congruence.
Qed.

Lemma call_reaches_loop (inputs : list (array F)) (st : pyval F) m m' outs fin :
  RNNScratch_call inputs st m = (Ok (outs, fin), m') ->
  exists st', for_loop inputs st' [] m = (Ok (outs, fin), m').
Proof.
  unfold RNNScratch_call, bind. destruct (negb (is_none st)).
  - unfold unpack1. destruct (py_iter st) as [[|x [|y l]]|]; try discriminate.
    intros E. now exists x.
  - intros E. now exists st.
Qed.

Lemma returned_state_is_array (inputs : list (array F)) (st : pyval F)
    m m' outs fin :
  RNNScratch_call inputs st m = (Ok (outs, fin), m') -> 1 <= length inputs ->
  exists a, fin = PyArr a.
Proof.
  intros E T. apply call_reaches_loop in E. destruct E as [st' E].
  apply for_loop_outputs in E. destruct E as (news & _ & L & -> & _).
  destruct news as [|s news]; [simpl in L; lia|].
  exists (last (s :: news) s). apply last_map_cons. discriminate.
Qed.

End Loop.

(* ================================================================== *)
(** ** Shape errors *)

Section Mismatch.
Context {F : Type} `{Scalar F}.

Lemma loop_body_input_mismatch (X : array F) state m b k input_dim hidden_dim :
  params_shaped (self m) input_dim hidden_dim ->
  shape X = [b; k] -> k <> input_dim ->
  loop_body X state m
  = (Raise MatmulShapeError, {| self := self m; trace := trace m ++ [OpMatmul] |}).
Proof.
  intros (Pxh & _) HX N. run.
  now rewrite (matmul_mismatch _ _ HX Pxh N).
Qed.

Lemma loop_body_state_mismatch (X s : array F) m b b' k' input_dim hidden_dim :
  params_shaped (self m) input_dim hidden_dim ->
  shape X = [b; input_dim] -> shape s = [b'; k'] -> k' <> hidden_dim ->
  loop_body X (PyArr s) m
  = (Raise MatmulShapeError,
     {| self := self m; trace := trace m ++ [OpMatmul; OpMatmul] |}).
Proof.
  intros (Pxh & Phh & _) HX Hs N. run.
  destruct (matmul_shape _ _ HX Pxh) as (xw & -> & _). simpl.
  rewrite (matmul_mismatch _ _ Hs Phh N). now rewrite <- app_assoc.
Qed.

End Mismatch.

(* ================================================================== *)
(** ** Exact arithmetic: a zero state adds nothing *)

Section Exact.
Context {F : Type} `{ExactScalar F}.

Lemma fold_zeros (l : list F) :
  Forall (fun x => x = fzero) l -> fold_left fadd l fzero = fzero.
Proof.
  induction 1 as [|x l -> _ IH]; simpl; [reflexivity|].
  now rewrite fadd_0_r.
Qed.

Lemma dot_zeros n (v : list F) : dot (repeat fzero n) v = fzero.
Proof.
  unfold dot. apply fold_zeros. apply Forall_forall. intros z I.
  apply zip_with_in in I. destruct I as (a & b & Ia & _ & ->).
  apply repeat_spec in Ia. subst a. apply fmul_0_l.
Qed.

Lemma map_const {A B} (y : B) (l : list A) :
  map (fun _ => y) l = repeat y (length l).
Proof. induction l; simpl; congruence. Qed.

Lemma vecmat_zeros n c (w : list (list F)) :
  vecmat c (repeat fzero n) w = repeat fzero c.
Proof.
  unfold vecmat. rewrite (map_ext _ (fun _ => fzero)).
  - now rewrite map_const, length_seq.
  - intros j. apply dot_zeros.
Qed.

Lemma matmul_zeros (w : array F) b h h' :
  shape w = [h; h'] -> matmul (zeros b h) w = Ok (zeros b h').
Proof.
  intros Hw. destruct (shape_rank2 _ Hw) as [wr [-> Lw]].
  unfold zeros. simpl. rewrite Lw, Nat.eqb_refl. do 2 f_equal.
  rewrite map_repeat. f_equal. apply vecmat_zeros.
Qed.

Lemma map_add_zero (r : list F) : map (fun x => fadd x fzero) r = r.
Proof. induction r as [|x r IH]; simpl; [reflexivity|]. now rewrite fadd_0_r, IH. Qed.

Lemma add_vec_zero_row h (r : list F) :
  length r = h -> add_vec h r (repeat fzero h) = r.
Proof.
  intros L. unfold add_vec.
  rewrite (stretch_same r L), (stretch_same _ (repeat_length fzero h)).
  rewrite (zip_with_repeat_r _ _ _ L). apply map_add_zero.
Qed.

Lemma add_vec_zero_scalar h (r : list F) :
  length r = h -> add_vec h r [fzero] = r.
Proof.
  intros L. unfold add_vec.
  rewrite (stretch_same r L), stretch_single.
  rewrite (zip_with_repeat_r _ _ _ L). apply map_add_zero.
Qed.

Lemma map_id_in {A} (f : A -> A) (l : list A) :
  (forall x, In x l -> f x = x) -> map f l = l.
Proof.
  induction l as [|x l IH]; simpl; intros E; [reflexivity|].
  rewrite E by now left. rewrite IH; auto.
Qed.

Lemma add_zero_scalar (a : array F) b h :
  shape a = [b; h] -> rectangular a -> add a (Arr0 fzero) = Ok a.
Proof.
  intros Ha Ra. destruct (shape_rank2 _ Ha) as [rows [-> La]].
  unfold add. cbn [atleast_2d rank Nat.max of_rows].
  rewrite (bdim_fits (a := h) (or_intror eq_refl)).
  change (length [[fzero]]) with 1.
  rewrite (bdim_fits (a := length rows) (or_intror eq_refl)).
  cbn [Nat.max of_rows]. do 2 f_equal.
  rewrite stretch_same by reflexivity. rewrite stretch_single.
  rewrite (zip_with_repeat_r _ _ _ eq_refl).
  apply map_id_in. intros r I. apply add_vec_zero_scalar.
  simpl in Ra. rewrite Forall_forall in Ra. now apply Ra.
Qed.

Lemma add_zero_matrix (a : array F) b h :
  shape a = [b; h] -> rectangular a -> add a (zeros b h) = Ok a.
Proof.
  intros Ha Ra. destruct (shape_rank2 _ Ha) as [rows [-> La]].
  unfold add, zeros. cbn [atleast_2d rank Nat.max of_rows].
  rewrite bdim_same, repeat_length, La, bdim_same.
  do 2 f_equal.
  rewrite (stretch_same rows La), (stretch_same _ (repeat_length _ b)).
  rewrite (zip_with_repeat_r _ _ _ La).
  apply map_id_in. intros r I. apply add_vec_zero_row.
  simpl in Ra. rewrite Forall_forall in Ra. now apply Ra.
Qed.

Lemma step_zero_state (p : RNNScratch F) (x : array F) b k input_dim hidden_dim :
  params_shaped p input_dim hidden_dim -> shape x = [b; k] ->
  RecurrentCellStep p x None = RecurrentCellStep p x (Some (zeros b hidden_dim)).
Proof.
  intros (Pxh & Phh & _) Hx. unfold RecurrentCellStep.
  destruct (Nat.eq_dec k input_dim) as [->|N].
  - destruct (matmul_shape _ _ Hx Pxh) as (xw & -> & Sxw & Rxw).
    cbn [result_bind]. rewrite (matmul_zeros _ b Phh). cbn [result_bind].
    now rewrite (add_zero_scalar _ Sxw Rxw), (add_zero_matrix _ Sxw Rxw).
  - now rewrite (matmul_mismatch _ _ Hx Pxh N).
Qed.

End Exact.

Section Entries.
Context {F : Type} `{Scalar F}.

Lemma entries_tanh (a : array F) : entries (tanh a) = map ftanh (entries a).
Proof.
  destruct a as [x|v|c rows]; simpl; try reflexivity.
  now rewrite concat_map.
Qed.

(** A pass of the loop body that returns has computed the pre-activation
    [z = (X . W_xh + hw) + b_h], each operation having succeeded, where [hw]
    is the rank-0 zero when the state is [None] and [state . W_hh] when it
    is an array, and it returns [jnp.tanh(z)]: an array of the shape of [z]
    whose entries are, one by one, the [tanh] of the entries of [z]. *)
Lemma step_entries_are_tanh (X : array F) (state : pyval F) (m : machine F)
    (out : array F) :
  fst (loop_body X state m) = Ok out ->
  exists xw hw s z,
    matmul X (W_xh (self m)) = Ok xw /\
    match state with
    | PyNone => hw = Arr0 fzero
    | PyArr a => matmul a (W_hh (self m)) = Ok hw
    | PyTuple _ => False
    end /\
    add xw hw = Ok s /\
    add s (b_h (self m)) = Ok z /\
    shape out = shape z /\
    entries out = map ftanh (entries z).
Proof.
  run.
  destruct (matmul X (W_xh (self m))) as [xw|e]; cbn [fst snd self trace];
    [|discriminate].
  destruct state as [|items|a]; cbn [negb is_none fst snd self trace].
  - destruct (add xw (Arr0 fzero)) as [s|e] eqn:Es; cbn [fst snd self trace];
      [|discriminate].
    destruct (add s (b_h (self m))) as [z|e] eqn:Ez; cbn [fst snd self trace];
      [|discriminate].
    intros E. injection E as <-. exists xw, (Arr0 fzero), s, z.
    rewrite tanh_shape, entries_tanh. auto 7.
  - discriminate.
  - destruct (matmul a (W_hh (self m))) as [hw|e]; cbn [fst snd self trace];
      [|discriminate].
    destruct (add xw hw) as [s|e] eqn:Es; cbn [fst snd self trace];
      [|discriminate].
    destruct (add s (b_h (self m))) as [z|e] eqn:Ez; cbn [fst snd self trace];
      [|discriminate].
    intros E. injection E as <-. exists xw, hw, s, z.
    rewrite tanh_shape, entries_tanh. auto 7.
Qed.

Lemma he_normal_built (sample : nat -> nat -> nat -> F) key r c :
  0 < r -> 0 < c ->
  exists a, he_normal sample key r c = inr a /\ shape a = [r; c].
Proof.
  intros Hr Hc. unfold he_normal.
  destruct (Nat.eqb_spec r 0); [lia|]. destruct (Nat.eqb_spec c 0); [lia|].
  eexists; split; [reflexivity|]. simpl. now rewrite length_map, length_seq.
Qed.

Lemma he_normal_shape (sample : nat -> nat -> nat -> F) key r c a :
  he_normal sample key r c = inr a -> shape a = [r; c] /\ 0 < r /\ 0 < c.
Proof.
  unfold he_normal.
  destruct (Nat.eqb_spec r 0); [discriminate|].
  destruct (Nat.eqb_spec c 0); [discriminate|].
  cbn [orb]. intros E. injection E as <-. simpl.
  rewrite length_map, length_seq. repeat split; lia.
Qed.

Lemma he_normal_zero (sample : nat -> nat -> nat -> F) key r c :
  r = 0 \/ c = 0 -> he_normal sample key r c = inl ZeroDivisionError.
Proof.
  intros [->| ->]; unfold he_normal; [reflexivity|].
  now rewrite Nat.eqb_refl, orb_true_r.
Qed.

Lemma init_built (sample : nat -> nat -> nat -> F) input_dim hidden_dim rngs :
  0 < input_dim -> 0 < hidden_dim ->
  exists p,
    RNNScratch_init sample input_dim hidden_dim rngs = inr p /\
    params_shaped p input_dim hidden_dim /\
    he_normal sample rngs input_dim hidden_dim = inr (W_xh p) /\
    b_h p = zeros_init (S (S rngs)) hidden_dim.
Proof.
  intros Hi Hh. unfold RNNScratch_init.
  destruct (he_normal_built sample rngs Hi Hh) as (wx & Ex & Sx).
  destruct (he_normal_built sample (S rngs) Hh Hh) as (wh & Eh & Sh).
  rewrite Ex, Eh. eexists; split; [reflexivity|].
  unfold params_shaped. cbn [W_xh W_hh b_h num_hiddens shape zeros_init].
  rewrite repeat_length. auto 7.
Qed.

Lemma init_raises (sample : nat -> nat -> nat -> F) input_dim hidden_dim rngs :
  input_dim = 0 \/ hidden_dim = 0 ->
  RNNScratch_init sample input_dim hidden_dim rngs = inl ZeroDivisionError.
Proof.
  intros Z. unfold RNNScratch_init.
  now rewrite (he_normal_zero sample rngs Z).
Qed.

Lemma unpack_fails (inputs : list (array F)) (st : pyval F) m :
  is_none st = false -> length_one st = false ->
  RNNScratch_call inputs st m = (Raise UnpackError, m).
Proof.
  intros N L. unfold RNNScratch_call, bind. rewrite N. cbn [negb].
  unfold unpack1. unfold length_one in L.
  destruct (py_iter st) as [[|x [|y l]]|]; try discriminate; reflexivity.
Qed.

Lemma bare_matrix_length (c : nat) (rows : list (list F)) :
  length rows <> 1 -> length_one (PyArr (Arr2 c rows)) = false.
Proof.
  intros N. unfold length_one. simpl.
  destruct rows as [|r [|r' rows]]; try reflexivity. now contradiction N.
Qed.

End Entries.

(* ================================================================== *)
(** ** The properties of the specification *)

Section Claims.
Context {F : Type} `{Scalar F}.

(** C1.  One pass of the loop body of [RNNScratch.__call__] returns
    [tanh(X . W_xh + state . W_hh + b_h)], with the second term a zero when
    there is no previous state, and the call as a whole returns what the
    specification's driver computes: the fold of that step over the inputs
    in order, each new state appended to the outputs. *)
Theorem call_refines_SequenceDriver (inputs : list (array F)) (X : array F)
    (st : option (array F)) (m : machine F) :
  fst (loop_body X (as_returned st) m) = RecurrentCellStep (self m) X st /\
  fst (RNNScratch_call inputs (as_argument st) m)
  = returned (SequenceDriver (self m) inputs st).
Proof.
  split.
  - apply loop_body_result.
  - rewrite call_as_argument. apply for_loop_result.
Qed.

(** C4.  With no time step the call returns an empty output list and the
    initial hidden state as it was handed in (inside its 1-tuple); with no
    initial state it returns [None].  Nothing is computed on the way. *)
Theorem call_without_steps (m : machine F) :
  RNNScratch_call [] PyNone m = (Ok ([], PyNone), m) /\
  (forall h : pyval F, RNNScratch_call [] (PyTuple [h]) m = (Ok ([], h), m)) /\
  (forall st : option (array F),
     RNNScratch_call [] (as_argument st) m = (Ok ([], as_returned st), m)).
Proof.
  split; [reflexivity|]. split; [reflexivity|].
  intros [h|]; reflexivity.
Qed.

(** C5.  Over at least one time step, a call that returns has outputs that
    pass [check_len] for the number of steps, a returned state that is the
    last output, and outputs in step order: each one after the first is the
    step of the matching input from the output before it.  And a call does
    return when the parameters have the constructor's shapes, every input
    has shape [(batch_size, input_dim)] and the initial state is absent or
    of shape [(batch_size, hidden_dim)]. *)
Theorem final_state_is_last_output (inputs : list (array F)) (st : pyval F)
    (m : machine F) :
  1 <= length inputs ->
  (forall outs fin m',
     RNNScratch_call inputs st m = (Ok (outs, fin), m') ->
     check_len outs (length inputs) = true /\
     (forall d, fin = PyArr (last outs d)) /\
     (forall i d, S i < length inputs ->
        RecurrentCellStep (self m) (nth (S i) inputs d) (Some (nth i outs d))
        = Ok (nth (S i) outs d))) /\
  (forall st0 input_dim hidden_dim batch_size,
     st = as_argument st0 ->
     params_shaped (self m) input_dim hidden_dim ->
     Forall (fun X => shape X = [batch_size; input_dim]) inputs ->
     state_shaped st0 batch_size hidden_dim ->
     exists outs fin m', RNNScratch_call inputs st m = (Ok (outs, fin), m')).
Proof.
  intros T. split.
  - intros outs fin m' E.
    destruct (call_reaches_loop _ _ _ E) as [st' E'].
    apply for_loop_outputs in E'. destruct E' as (news & -> & L & -> & C).
    simpl. split; [|split].
    + unfold check_len. now rewrite L, Nat.eqb_refl.
    + intros d. apply last_map_cons.
      destruct news; [simpl in L; lia | discriminate].
    + intros i d Hi. eapply chained_step; eauto.
  - intros st0 input_dim hidden_dim batch_size -> P HI Hst.
    destruct (for_loop_shape (acc := []) st0 m P HI Hst (Forall_nil _))
      as (outs & fin & m' & E & _).
    exists outs, (as_returned fin), m'. now rewrite call_as_argument.
Qed.

(** C6.  For valid dimensions (both positive) the constructor returns a
    cell whose parameters have the shapes [(input_dim, hidden_dim)],
    [(hidden_dim, hidden_dim)] and [(hidden_dim,)] and which records
    [num_hiddens = hidden_dim]; for a dimension of 0 it raises
    [ZeroDivisionError].  With parameters of these shapes, a step on an
    input of shape [(batch_size, input_dim)] returns a state that passes
    [check_shape] for [(batch_size, hidden_dim)], and a call on such inputs
    returns one state per step, each passing [check_shape] for
    [(batch_size, num_hiddens)], with the parameters' shapes as before. *)
Theorem hidden_dim_invariant (sample : nat -> nat -> nat -> F)
    (rngs input_dim hidden_dim batch_size : nat)
    (inputs : list (array F)) (st : option (array F)) (m : machine F) :
  params_shaped (self m) input_dim hidden_dim ->
  Forall (fun X => shape X = [batch_size; input_dim]) inputs ->
  state_shaped st batch_size hidden_dim ->
  (0 < input_dim -> 0 < hidden_dim ->
   exists p, RNNScratch_init sample input_dim hidden_dim rngs = inr p /\
             params_shaped p input_dim hidden_dim) /\
  (input_dim = 0 \/ hidden_dim = 0 ->
   RNNScratch_init sample input_dim hidden_dim rngs = inl ZeroDivisionError) /\
  (forall X, shape X = [batch_size; input_dim] ->
     exists s, fst (loop_body X (as_returned st) m) = Ok s /\
               check_shape s [batch_size; hidden_dim] = true) /\
  exists outs fin m',
    RNNScratch_call inputs (as_argument st) m = (Ok (outs, as_returned fin), m') /\
    check_len outs (length inputs) = true /\
    Forall (fun s => check_shape s [batch_size; num_hiddens (self m)] = true) outs /\
    state_shaped fin batch_size hidden_dim /\
    params_shaped (self m') input_dim hidden_dim.
Proof.
  intros P HI Hst. split; [|split; [apply init_raises|split]].
  - intros Hi Hh.
    destruct (init_built sample rngs Hi Hh) as (p & E & Pp & _).
    now exists p.
  - intros X HX. destruct (loop_body_shape X st m P HX Hst) as (s & E & Ss & _).
    exists s. split; [exact E|]. now apply check_shape_true.
  - destruct (for_loop_shape (acc := []) st m P HI Hst (Forall_nil _))
      as (outs & fin & m' & E & L & Fo & Fs & Sm).
    exists outs, fin, m'. rewrite call_as_argument. split; [exact E|].
    repeat split.
    + unfold check_len. simpl in L. now rewrite L, Nat.eqb_refl.
    + destruct P as (_ & _ & _ & ->).
      eapply Forall_impl; [|exact Fo]. intros a. apply check_shape_true.
    + exact Fs.
    + rewrite Sm. apply P.
    + rewrite Sm. apply P.
    + rewrite Sm. apply P.
    + rewrite Sm. apply P.
Qed.

(** C7.  The result of a call is a function of the module object's
    attributes and the arguments alone: two machines that hold the same
    object give equal results, whatever calls were made before, and so does
    a second call made right after the first; the same holds of one pass of
    the loop body. *)
Theorem call_deterministic (inputs : list (array F)) (state : pyval F)
    (m1 m2 : machine F) :
  self m1 = self m2 ->
  fst (RNNScratch_call inputs state m1) = fst (RNNScratch_call inputs state m2) /\
  fst (RNNScratch_call inputs state (snd (RNNScratch_call inputs state m1)))
  = fst (RNNScratch_call inputs state m1) /\
  (forall X, fst (loop_body X state m1) = fst (loop_body X state m2)).
Proof.
  intros E. split; [|split].
  - apply reads_only_result; [apply reads_only_call|exact E].
  - apply reads_only_result; [apply reads_only_call|].
    apply reads_only_self, reads_only_call.
  - intros X. apply reads_only_result; [apply reads_only_loop_body|exact E].
Qed.

(** C8.  A call leaves the module object as it was, whether it returns or
    raises: [W_xh], [W_hh] and [b_h] afterwards are the arrays they were
    before. *)
Theorem call_leaves_parameters (inputs : list (array F)) (state : pyval F)
    (m : machine F) :
  self (snd (RNNScratch_call inputs state m)) = self m /\
  W_xh (self (snd (RNNScratch_call inputs state m))) = W_xh (self m) /\
  W_hh (self (snd (RNNScratch_call inputs state m))) = W_hh (self m) /\
  b_h (self (snd (RNNScratch_call inputs state m))) = b_h (self m).
Proof.
  pose proof (reads_only_self m (reads_only_call inputs state)) as E.
  rewrite E. auto.
Qed.

(** C2, as the code has it.  When the input's feature dimension is not
    [input_dim], or the previous state's second dimension is not
    [hidden_dim], the step raises the shape error of [jnp.matmul], from
    inside the multiplication, and [X . W_xh] comes first: when the input
    does not fit, that product raises and is the only library call entered,
    whatever the state; when the input fits and the state does not, that
    product is completed and [state . W_hh] raises, two products having
    been entered.  No addition and no [tanh] is entered, the loop stops at
    once and hands the error to the caller, and the module object is as it
    was. *)
Theorem shape_mismatch_raised_by_matmul (X : array F) (st : option (array F))
    (rest outputs : list (array F)) (m : machine F)
    (input_dim hidden_dim b k b' k' : nat) :
  params_shaped (self m) input_dim hidden_dim ->
  shape X = [b; k] ->
  state_shaped st b' k' ->
  k <> input_dim \/ (st <> None /\ k' <> hidden_dim) ->
  loop_body X (as_returned st) m
  = (Raise MatmulShapeError,
     {| self := self m;
        trace := trace m ++ ops_until_mismatch (k =? input_dim) |}) /\
  for_loop (X :: rest) (as_returned st) outputs m
  = (Raise MatmulShapeError,
     {| self := self m;
        trace := trace m ++ ops_until_mismatch (k =? input_dim) |}) /\
  RNNScratch_call (X :: rest) (as_argument st) m
  = (Raise MatmulShapeError,
     {| self := self m;
        trace := trace m ++ ops_until_mismatch (k =? input_dim) |}) /\
  (k <> input_dim -> matmul X (W_xh (self m)) = Raise MatmulShapeError) /\
  (k = input_dim ->
   exists xw s, matmul X (W_xh (self m)) = Ok xw /\ st = Some s /\
                matmul s (W_hh (self m)) = Raise MatmulShapeError).
Proof.
  intros P HX Hst Bad.
  assert (loop_body X (as_returned st) m
          = (Raise MatmulShapeError,
             {| self := self m;
                trace := trace m ++ ops_until_mismatch (k =? input_dim) |}))
    as E.
  { destruct (Nat.eqb_spec k input_dim) as [->|N]; cbn [ops_until_mismatch].
    - destruct Bad as [Bad|[Some' N']]; [contradiction|].
      destruct st as [s|]; [|contradiction]. simpl in Hst.
      eapply loop_body_state_mismatch; eauto.
    - eapply loop_body_input_mismatch; eauto. }
  split; [exact E|]. split; [|split; [|split]].
  - simpl. unfold bind. now rewrite E.
  - rewrite call_as_argument. simpl. unfold bind. now rewrite E.
  - intros N. destruct P as (Pxh & _). exact (matmul_mismatch _ _ HX Pxh N).
  - intros ->. destruct Bad as [Bad|[Some' N']]; [contradiction|].
    destruct st as [s|]; [|contradiction]. simpl in Hst.
    destruct P as (Pxh & Phh & _).
    destruct (matmul_shape _ _ HX Pxh) as (xw & Exw & _).
    exists xw, s. split; [exact Exw|]. split; [reflexivity|].
    exact (matmul_mismatch _ _ Hst Phh N').
Qed.

(** C10.  A state argument that is not [None] and is not a length-one
    sequence makes the call raise at [state, = state], before any library
    call and with the machine as it was; a 1-tuple is unpacked to the value
    it wraps; and the state a call over at least one step returns is a bare
    array, which, handed back as it is with a batch size other than 1, makes
    the next call raise in the same way. *)
Theorem state_formats_differ (inputs : list (array F)) (st : pyval F)
    (m : machine F) :
  is_none st = false -> length_one st = false ->
  RNNScratch_call inputs st m = (Raise UnpackError, m) /\
  (forall h, RNNScratch_call inputs (PyTuple [h]) m = for_loop inputs h [] m) /\
  (forall c rows, length rows <> 1 ->
     RNNScratch_call inputs (PyArr (Arr2 c rows)) m = (Raise UnpackError, m)) /\
  (forall st0 outs fin m',
     RNNScratch_call inputs st0 m = (Ok (outs, fin), m') -> inputs <> [] ->
     exists a, fin = PyArr a /\
       forall b h inputs2 m2, shape a = [b; h] -> b <> 1 ->
         RNNScratch_call inputs2 fin m2 = (Raise UnpackError, m2)).
Proof.
  intros N L. split; [now apply unpack_fails|]. split; [reflexivity|]. split.
  - intros c rows R. apply unpack_fails; [reflexivity|].
    now apply bare_matrix_length.
  - intros st0 outs fin m' E NE.
    assert (1 <= length inputs) as T
      by (destruct inputs; [contradiction | simpl; lia]).
    destruct (returned_state_is_array _ _ _ E T) as [a ->].
    exists a. split; [reflexivity|].
    intros b h inputs2 m2 Sa Nb.
    destruct (shape_rank2 _ Sa) as [rows [-> Lr]].
    apply unpack_fails; [reflexivity|]. apply bare_matrix_length. now rewrite Lr.
Qed.

End Claims.

Section ExactClaims.
Context {F : Type} `{ExactScalar F}.


End ExactClaims.

(* ================================================================== *)
(** ** The properties on the notebook's example *)

(** C2, as the specification words it, fails on the specification's own
    scenario: an input with 5 features handed to a cell built for 2 raises
    only once [jnp.matmul] has been entered, and an ill-shaped state raises
    after a first multiplication has been completed. *)
Lemma shape_error_detected_inside_matmul :
  raised_before_matmul (loop_body Notebook.X5 PyNone Notebook.start) = false /\
  loop_body Notebook.X5 PyNone Notebook.start
  = (Raise MatmulShapeError, {| self := Notebook.rnn; trace := [OpMatmul] |}) /\
  loop_body (Arr2 2 [[1; 1]; [1; 1]]%Z) (PyArr Notebook.H4) Notebook.start
  = (Raise MatmulShapeError,
     {| self := Notebook.rnn; trace := [OpMatmul; OpMatmul] |}).
Proof. repeat split. Qed.

Lemma shape_mismatch_raised_by_matmul_witness :
  loop_body (Arr2 2 [[1; 1]; [1; 1]]%Z) (PyArr Notebook.H4) Notebook.start
  = (Raise MatmulShapeError,
     {| self := Notebook.rnn; trace := [] ++ ops_until_mismatch (2 =? 2) |}) /\
  for_loop [Arr2 2 [[1; 1]; [1; 1]]%Z; Notebook.X5] (PyArr Notebook.H4) []
    Notebook.start
  = (Raise MatmulShapeError,
     {| self := Notebook.rnn; trace := [] ++ ops_until_mismatch (2 =? 2) |}) /\
  RNNScratch_call [Arr2 2 [[1; 1]; [1; 1]]%Z; Notebook.X5]
    (PyTuple [PyArr Notebook.H4]) Notebook.start
  = (Raise MatmulShapeError,
     {| self := Notebook.rnn; trace := [] ++ ops_until_mismatch (2 =? 2) |}) /\
  (2 <> 2 ->
   matmul (Arr2 2 [[1; 1]; [1; 1]]%Z) (W_xh Notebook.rnn)
   = Raise MatmulShapeError) /\
  (2 = 2 ->
   exists xw s,
     matmul (Arr2 2 [[1; 1]; [1; 1]]%Z) (W_xh Notebook.rnn) = Ok xw /\
     Some Notebook.H4 = Some s /\
     matmul s (W_hh Notebook.rnn) = Raise MatmulShapeError).
Proof.
  apply (@shape_mismatch_raised_by_matmul Z Z_scalar
           (Arr2 2 [[1; 1]; [1; 1]]%Z) (Some Notebook.H4) [Notebook.X5] []
           Notebook.start 2 3 2 2 2 4).
  - repeat split.
  - reflexivity.
  - reflexivity.
  - right. split; [discriminate | lia].
Defined.

(** The two orders of failure on the notebook's cell: an input that does
    not fit raises in the first product even when the state fits, and a
    state that does not fit raises in the second. *)
Example products_in_order :
  loop_body Notebook.X5 (PyArr (zeros 2 3)) Notebook.start
  = (Raise MatmulShapeError, {| self := Notebook.rnn; trace := [OpMatmul] |}) /\
  loop_body (Arr2 2 [[1; 1]; [1; 1]]%Z) (PyArr Notebook.H4) Notebook.start
  = (Raise MatmulShapeError,
     {| self := Notebook.rnn; trace := [OpMatmul; OpMatmul] |}).
Proof. split; reflexivity. Qed.



Lemma final_state_is_last_output_witness :
  (forall outs fin m',
     RNNScratch_call Notebook.X PyNone Notebook.start = (Ok (outs, fin), m') ->
     check_len outs (length Notebook.X) = true /\
     (forall d, fin = PyArr (last outs d)) /\
     (forall i d, S i < length Notebook.X ->
        RecurrentCellStep Notebook.rnn (nth (S i) Notebook.X d) (Some (nth i outs d))
        = Ok (nth (S i) outs d))) /\
  (forall (st0 : option (array Z)) input_dim hidden_dim batch_size,
     PyNone = as_argument st0 ->
     params_shaped Notebook.rnn input_dim hidden_dim ->
     Forall (fun X => shape X = [batch_size; input_dim]) Notebook.X ->
     state_shaped st0 batch_size hidden_dim ->
     exists outs fin m',
       RNNScratch_call Notebook.X PyNone Notebook.start = (Ok (outs, fin), m')).
Proof.
  apply (@final_state_is_last_output Z Z_scalar Notebook.X PyNone Notebook.start).
  simpl. lia.
Defined.

(** The notebook's own checks on its run: [check_len(outputs, num_steps)],
    [check_shape(outputs[0], (batch_size, num_hiddens))] and
    [check_shape(state, (batch_size, num_hiddens))]. *)
Example notebook_checks :
  RNNScratch_call Notebook.X PyNone Notebook.start
  = (Ok (Notebook.outputs, Notebook.state), Notebook.after_call) /\
  check_len Notebook.outputs Notebook.num_steps = true /\
  check_shape (nth 0 Notebook.outputs (Arr0 0%Z))
    [Notebook.batch_size; Notebook.num_hiddens] = true /\
  Notebook.state = PyArr (last Notebook.outputs (Arr0 0%Z)).
Proof. repeat split. Qed.

Lemma hidden_dim_invariant_witness :
  (0 < 2 -> 0 < 3 ->
   exists p, RNNScratch_init Notebook.sample 2 3 0 = inr p /\
             params_shaped p 2 3) /\
  (2 = 0 \/ 3 = 0 ->
   RNNScratch_init Notebook.sample 2 3 0 = inl ZeroDivisionError) /\
  (forall X, shape X = [2; 2] ->
     exists s, fst (loop_body X PyNone Notebook.start) = Ok s /\
               check_shape s [2; 3] = true) /\
  exists outs fin m',
    RNNScratch_call Notebook.X PyNone Notebook.start
    = (Ok (outs, as_returned fin), m') /\
    check_len outs (length Notebook.X) = true /\
    Forall (fun s => check_shape s [2; 3] = true) outs /\
    state_shaped fin 2 3 /\
    params_shaped (self m') 2 3.
Proof.
  apply (@hidden_dim_invariant Z Z_scalar Notebook.sample 0 2 3 2
           Notebook.X None Notebook.start).
  - repeat split.
  - repeat constructor.
  - exact I.
Defined.

(** The constructor on the example's draws, and on a dimension of 0. *)
Example constructors_on_examples :
  RNNScratch_init Notebook.sample 5 3 0 = inr Corpus.rnn /\
  RNNLMScratch_init Notebook.sample Corpus.rnn 5 3 = inr Corpus.model /\
  RNNScratch_init Notebook.sample 0 3 0 = inl ZeroDivisionError /\
  RNNScratch_init Notebook.sample 5 0 0 = inl ZeroDivisionError /\
  RNNLMScratch_init Notebook.sample Corpus.rnn 0 3 = inl ZeroDivisionError.
Proof. repeat split. Qed.

Lemma call_deterministic_witness :
  fst (RNNScratch_call Notebook.X PyNone Notebook.start)
  = fst (RNNScratch_call Notebook.X PyNone Notebook.later) /\
  fst (RNNScratch_call Notebook.X PyNone
         (snd (RNNScratch_call Notebook.X PyNone Notebook.start)))
  = fst (RNNScratch_call Notebook.X PyNone Notebook.start) /\
  (forall X, fst (loop_body X PyNone Notebook.start)
             = fst (loop_body X PyNone Notebook.later)).
Proof.
  apply (@call_deterministic Z Z_scalar Notebook.X PyNone Notebook.start
           Notebook.later).
  reflexivity.
Defined.

Lemma state_formats_differ_witness :
  RNNScratch_call Notebook.X Notebook.state Notebook.start
  = (Raise UnpackError, Notebook.start) /\
  (forall h, RNNScratch_call Notebook.X (PyTuple [h]) Notebook.start
             = for_loop Notebook.X h [] Notebook.start) /\
  (forall c rows, length rows <> 1 ->
     RNNScratch_call Notebook.X (PyArr (Arr2 c rows)) Notebook.start
     = (Raise UnpackError, Notebook.start)) /\
  (forall st0 outs fin m',
     RNNScratch_call Notebook.X st0 Notebook.start = (Ok (outs, fin), m') ->
     Notebook.X <> [] ->
     exists a, fin = PyArr a /\
       forall b h inputs2 m2, shape a = [b; h] -> b <> 1 ->
         RNNScratch_call inputs2 fin m2 = (Raise UnpackError, m2)).
Proof.
  apply (@state_formats_differ Z Z_scalar Notebook.X Notebook.state Notebook.start).
  - reflexivity.
  - reflexivity.
Defined.

Lemma step_entries_are_tanh_witness :
  exists xw hw s z,
    matmul (Arr2 2 [[1; 1]; [1; 1]]%Z) (W_xh Notebook.rnn) = Ok xw /\
    hw = Arr0 0%Z /\
    add xw hw = Ok s /\
    add s (b_h Notebook.rnn) = Ok z /\
    shape (Arr2 3 [[1; -1; -1]; [1; -1; -1]]%Z) = shape z /\
    entries (Arr2 3 [[1; -1; -1]; [1; -1; -1]]%Z) = map Z.sgn (entries z).
Proof.
  apply (@step_entries_are_tanh Z Z_scalar (Arr2 2 [[1; 1]; [1; 1]]%Z) PyNone
           Notebook.start (Arr2 3 [[1; -1; -1]; [1; -1; -1]]%Z)).
  reflexivity.
Defined.

(* ================================================================== *)
(** ** Calls in a row *)

Section Composition.
Context {F : Type} `{Scalar F}.

Lemma for_loop_acc (inputs : list (array F)) :
  forall state acc m,
    for_loop inputs state acc m
    = (onto acc (fst (for_loop inputs state [] m)),
       snd (for_loop inputs state [] m)).
Proof.
  induction inputs as [|X rest IH]; intros state acc m; simpl.
  - unfold ret. simpl. now rewrite app_nil_r.
  - unfold bind. destruct (loop_body X state m) as [[s|e] m1]; [|reflexivity].
    rewrite (IH (PyArr s) (acc ++ [s]) m1), (IH (PyArr s) [s] m1).
    simpl. f_equal.
    destruct (fst (for_loop rest (PyArr s) [] m1)) as [[o s']|e]; simpl;
      [|reflexivity].
    now rewrite <- app_assoc.
Qed.

Lemma for_loop_app (xs ys : list (array F)) :
  forall state acc m,
    for_loop (xs ++ ys) state acc m
    = bind (for_loop xs state acc) (fun r => for_loop ys (snd r) (fst r)) m.
Proof.
  induction xs as [|X rest IH]; intros state acc m; simpl.
  - reflexivity.
  - unfold bind in *. destruct (loop_body X state m) as [[s|e] m1];
      [|reflexivity].
    apply IH.
Qed.

Lemma call_hand_back (ys : list (array F)) (v : pyval F) m :
  RNNScratch_call ys (hand_back v) m = for_loop ys v [] m.
Proof. destruct v; reflexivity. Qed.

Lemma for_loop_length (inputs : list (array F)) state m m' outs fin :
  for_loop inputs state [] m = (Ok (outs, fin), m') ->
  length outs = length inputs.
Proof.
  intros E. apply for_loop_outputs in E.
  destruct E as (news & -> & L & _). exact L.
Qed.

(** A call on [xs ++ ys] is the call on [xs] followed by the call on [ys]
    from the state handed back, with the outputs joined: same result, same
    machine afterwards. *)
Theorem call_splits (xs ys : list (array F)) (state : pyval F) (m : machine F) :
  RNNScratch_call (xs ++ ys) state m = call_in_two xs ys state m.
Proof.
  unfold call_in_two, RNNScratch_call at 1 2. unfold bind.
  destruct ((if negb (is_none state) then unpack1 state else ret state) m)
    as [[st|e] m0]; [|reflexivity].
  rewrite for_loop_app. unfold bind.
  destruct (for_loop xs st [] m0) as [[[o1 s1]|e] m1]; [|reflexivity].
  cbn [fst snd]. rewrite call_hand_back, (for_loop_acc ys s1 o1 m1).
  destruct (for_loop ys s1 [] m1) as [[[o2 s2]|e] m2]; reflexivity.
Qed.

(** When a call on [xs ++ ys] returns, the call on [xs] alone returns the
    first [length xs] outputs, and the call on [ys] from the state handed
    back returns the remaining ones and the same final state: an output
    does not depend on the inputs after it. *)
Theorem outputs_of_a_prefix (xs ys : list (array F)) (state : pyval F)
    (m m' : machine F) (outs : list (array F)) (fin : pyval F) :
  RNNScratch_call (xs ++ ys) state m = (Ok (outs, fin), m') ->
  exists s1 m1,
    RNNScratch_call xs state m = (Ok (firstn (length xs) outs, s1), m1) /\
    RNNScratch_call ys (hand_back s1) m1 = (Ok (skipn (length xs) outs, fin), m').
Proof.
  unfold RNNScratch_call at 1 2. unfold bind.
  destruct ((if negb (is_none state) then unpack1 state else ret state) m)
    as [[st|e] m0]; [|discriminate].
  rewrite for_loop_app. unfold bind.
  destruct (for_loop xs st [] m0) as [[[o1 s1]|e] m1] eqn:E1; [|discriminate].
  cbn [fst snd]. rewrite (for_loop_acc ys s1 o1 m1).
  destruct (for_loop ys s1 [] m1) as [[[o2 s2]|e] m2] eqn:E2; [|discriminate].
  cbn [fst snd onto]. intros E. injection E as <- <- <-.
  apply for_loop_length in E1.
  exists s1, m1. rewrite <- E1.
  rewrite firstn_app, Nat.sub_diag, firstn_O, app_nil_r, firstn_all.
  rewrite skipn_app, Nat.sub_diag, skipn_all, skipn_O.
  split; [reflexivity | now rewrite call_hand_back].
Qed.

(** One ill-shaped input anywhere fails the whole call: when the inputs
    before it are well shaped, so that the call on them alone returns one
    state each, the call on the whole sequence raises the shape error of
    [jnp.matmul] and hands none of those states back. *)
Theorem one_bad_step_fails_the_call (good rest : list (array F)) (X : array F)
    (st : option (array F)) (m : machine F)
    (input_dim hidden_dim batch_size b k : nat) :
  params_shaped (self m) input_dim hidden_dim ->
  Forall (fun x => shape x = [batch_size; input_dim]) good ->
  state_shaped st batch_size hidden_dim ->
  shape X = [b; k] -> k <> input_dim ->
  fst (RNNScratch_call (good ++ X :: rest) (as_argument st) m)
  = Raise MatmulShapeError /\
  exists outs fin,
    fst (RNNScratch_call good (as_argument st) m) = Ok (outs, fin) /\
    length outs = length good.
Proof.
  intros P HG Hst HX N.
  destruct (for_loop_shape (acc := []) st m P HG Hst (Forall_nil _))
    as (outs & fin & m1 & E & L & _ & _ & Sm).
  split.
  - rewrite call_as_argument, for_loop_app. unfold bind. rewrite E.
    cbn [fst snd for_loop]. unfold bind.
    rewrite <- Sm in P.
    now rewrite (loop_body_input_mismatch X (as_returned fin) m1 P HX N).
  - exists outs, (as_returned fin). rewrite call_as_argument, E.
    split; [reflexivity | exact L].
Qed.

End Composition.

(* ================================================================== *)
(** ** The batch dimension *)

Section Batch.
Context {F : Type} `{Scalar F}.

Lemma bdim_some a b r :
  bdim a b = Some r -> (a = r \/ a = 1) /\ (b = r \/ b = 1).
Proof.
  unfold bdim.
  destruct (Nat.eqb_spec a b) as [->|]; [intros E; injection E as <-; auto|].
  destruct (Nat.eqb_spec a 1) as [->|]; [intros E; injection E as <-; auto|].
  destruct (Nat.eqb_spec b 1) as [->|]; [intros E; injection E as <-; auto|].
  discriminate.
Qed.

Lemma bdim_none a b : a <> b -> a <> 1 -> b <> 1 -> bdim a b = None.
Proof.
  intros N1 N2 N3. unfold bdim.
  destruct (Nat.eqb_spec a b); [contradiction|].
  destruct (Nat.eqb_spec a 1); [contradiction|].
  destruct (Nat.eqb_spec b 1); [contradiction|reflexivity].
Qed.

Lemma add_rank2 (a o : array F) b1 b2 h r :
  shape a = [b1; h] -> rectangular a -> shape o = [b2; h] -> rectangular o ->
  bdim b1 b2 = Some r ->
  exists x, add a o = Ok x /\ shape x = [r; h] /\ rectangular x.
Proof.
  intros Ha Ra Ho Ro Hb.
  destruct (shape_rank2 _ Ha) as [rows1 [-> L1]].
  destruct (shape_rank2 _ Ho) as [rows2 [-> L2]].
  destruct (bdim_some _ _ Hb) as [B1 B2].
  unfold add. cbn [atleast_2d rank Nat.max of_rows].
  rewrite bdim_same, L1, L2, Hb.
  eexists; split; [reflexivity|]. cbn [shape rectangular]. split.
  - rewrite zip_with_length, !stretch_length by (rewrite ?L1, ?L2; assumption).
    now rewrite Nat.min_id.
  - apply Forall_forall. intros z I.
    apply zip_with_in in I. destruct I as (u & v & Iu & Iv & ->).
    apply stretch_in in Iu. apply stretch_in in Iv.
    simpl in Ra, Ro. rewrite Forall_forall in Ra, Ro.
    apply add_vec_length; left; auto.
Qed.

Lemma add_rank2_mismatch (a o : array F) b1 b2 h :
  shape a = [b1; h] -> shape o = [b2; h] ->
  b1 <> b2 -> b1 <> 1 -> b2 <> 1 ->
  add a o = Raise BroadcastShapeError.
Proof.
  intros Ha Ho N1 N2 N3.
  destruct (shape_rank2 _ Ha) as [rows1 [-> L1]].
  destruct (shape_rank2 _ Ho) as [rows2 [-> L2]].
  unfold add. cbn [atleast_2d].
  now rewrite bdim_same, L1, L2, (bdim_none N1 N2 N3).
Qed.

Lemma step_with_state_shape (p : RNNScratch F) (X s : array F)
    input_dim hidden_dim b b' r :
  params_shaped p input_dim hidden_dim ->
  shape X = [b; input_dim] -> shape s = [b'; hidden_dim] ->
  bdim b b' = Some r ->
  exists out, RecurrentCellStep p X (Some s) = Ok out /\
              shape out = [r; hidden_dim].
Proof.
  intros (Pxh & Phh & Pb & _) HX Hs Hb. unfold RecurrentCellStep.
  destruct (matmul_shape _ _ HX Pxh) as (xw & -> & Sxw & Rxw).
  destruct (matmul_shape _ _ Hs Phh) as (hw & -> & Shw & Rhw).
  cbn [result_bind].
  destruct (add_rank2 _ _ Sxw Rxw Shw Rhw Hb) as (x & -> & Sx & Rx).
  cbn [result_bind].
  destruct (add_shape _ Sx Rx (bias_broadcasts _ r Pb)) as (z & -> & Sz & _).
  cbn [result_bind]. eexists; split; [reflexivity|]. now rewrite tanh_shape.
Qed.

(** The batch sizes of the input and of the previous state need not agree:
    a state of batch size 1 is broadcast over the input's batch, an input of
    batch size 1 is broadcast over the state's, and the new state takes the
    larger batch; two different batch sizes neither of which is 1 make the
    first addition raise, after both products. *)
Theorem step_broadcasts_batch (X s : array F) (m : machine F)
    (input_dim hidden_dim b b' : nat) :
  params_shaped (self m) input_dim hidden_dim ->
  shape X = [b; input_dim] -> shape s = [b'; hidden_dim] ->
  (b' = b \/ b' = 1 ->
   exists out, fst (loop_body X (PyArr s) m) = Ok out /\
               shape out = [b; hidden_dim]) /\
  (b = 1 ->
   exists out, fst (loop_body X (PyArr s) m) = Ok out /\
               shape out = [b'; hidden_dim]) /\
  (b <> b' -> b <> 1 -> b' <> 1 ->
   loop_body X (PyArr s) m
   = (Raise BroadcastShapeError,
      {| self := self m; trace := trace m ++ [OpMatmul; OpMatmul; OpAdd] |})).
Proof.
  intros P HX Hs.
  change (PyArr s) with (as_returned (Some s)). rewrite loop_body_result.
  split; [|split].
  - intros B. eapply step_with_state_shape; [exact P | exact HX | exact Hs |].
    destruct B as [->| ->]; [apply bdim_same | now apply bdim_fits; right].
  - intros ->. eapply step_with_state_shape; [exact P | exact HX | exact Hs |].
    unfold bdim. destruct (Nat.eqb_spec 1 b') as [<-|]; reflexivity.
  - intros N1 N2 N3. destruct P as (Pxh & Phh & _). cbn [as_returned]. run.
    destruct (matmul_shape _ _ HX Pxh) as (xw & -> & Sxw & _).
    cbn [negb is_none self trace fst snd].
    destruct (matmul_shape _ _ Hs Phh) as (hw & -> & Shw & _).
    rewrite (add_rank2_mismatch _ _ Sxw Shw N1 N2 N3).
    cbn [self trace]. now rewrite <- !app_assoc.
Qed.

Lemma add_row_as_matrix (xr : list (list F)) (v : list F) h :
  length v = h -> add (Arr2 h xr) (Arr1 v) = add (Arr2 h xr) (Arr2 h [v]).
Proof. intros L. unfold add. cbn [atleast_2d rank Nat.max]. now rewrite L. Qed.

(** For a batch of one, the state a call returned can be handed back as it
    is: the bare array of shape [(1, hidden_dim)] is unpacked to its row,
    and a call over at least one step gives the result it gives for the
    array wrapped in a 1-tuple. *)
Theorem single_state_needs_no_tuple (X : array F) (rest : list (array F))
    (row : list F) (m : machine F) (input_dim hidden_dim b k : nat) :
  params_shaped (self m) input_dim hidden_dim ->
  shape X = [b; k] -> length row = hidden_dim ->
  RNNScratch_call (X :: rest) (PyArr (Arr2 hidden_dim [row])) m
  = RNNScratch_call (X :: rest) (PyTuple [PyArr (Arr2 hidden_dim [row])]) m.
Proof.
  intros (Pxh & Phh & _) HX L.
  change (for_loop (X :: rest) (PyArr (Arr1 row)) [] m
          = for_loop (X :: rest) (PyArr (Arr2 hidden_dim [row])) [] m).
  cbn [for_loop]. unfold bind.
  replace (loop_body X (PyArr (Arr1 row)) m)
    with (loop_body X (PyArr (Arr2 hidden_dim [row])) m); [reflexivity|].
  destruct (shape_rank2 _ HX) as [xr [-> Lx]].
  destruct (shape_rank2 _ Pxh) as [wx [Ex Lwx]].
  destruct (shape_rank2 _ Phh) as [wh [Eh Lwh]].
  run. rewrite Ex. cbn [matmul]. rewrite Lwx.
  destruct (k =? input_dim); [|reflexivity].
  cbn [fst snd self trace is_none negb]. rewrite Eh. cbn [matmul].
  rewrite Lwh, L, Nat.eqb_refl. cbn [fst snd self trace].
  cbn [map]. now rewrite (add_row_as_matrix _ _ (vecmat_length hidden_dim row wh)).
Qed.

End Batch.

(* ================================================================== *)
(** ** The library calls of a run *)

Section Calls.
Context {F : Type} `{Scalar F}.

Lemma loop_body_trace (X : array F) (state : pyval F) m s :
  fst (loop_body X state m) = Ok s ->
  snd (loop_body X state m)
  = {| self := self m; trace := trace m ++ step_ops (negb (is_none state)) |}.
Proof.
  run.
  destruct (matmul X (W_xh (self m))) as [xw|e]; cbn [fst snd self trace];
    [|discriminate].
  destruct state as [|items|a]; cbn [negb is_none fst snd self trace step_ops].
  - destruct (add xw (Arr0 fzero)) as [z|e]; cbn [fst snd self trace];
      [|discriminate].
    destruct (add z (b_h (self m))) as [y|e]; cbn [fst snd self trace];
      [|discriminate].
    intros _. now rewrite <- !app_assoc.
  - discriminate.
  - destruct (matmul a (W_hh (self m))) as [hw|e]; cbn [fst snd self trace];
      [|discriminate].
    destruct (add xw hw) as [z|e]; cbn [fst snd self trace]; [|discriminate].
    destruct (add z (b_h (self m))) as [y|e]; cbn [fst snd self trace];
      [|discriminate].
    intros _. now rewrite <- !app_assoc.
Qed.

Lemma call_ops_with_state n :
  call_ops true n = concat (repeat (step_ops true) n).
Proof. destruct n; reflexivity. Qed.

Lemma for_loop_trace (inputs : list (array F)) :
  forall state acc m outs fin m',
    for_loop inputs state acc m = (Ok (outs, fin), m') ->
    m' = {| self := self m;
            trace := trace m ++ call_ops (negb (is_none state)) (length inputs) |}.
Proof.
  induction inputs as [|X rest IH]; intros state acc m outs fin m'; simpl.
  - unfold ret. intros E. injection E as _ _ <-. rewrite app_nil_r.
    now destruct m.
  - unfold bind. pose proof (loop_body_trace X state m) as T.
    destruct (loop_body X state m) as [[s|e] m1]; [|discriminate].
    specialize (T s eq_refl). cbn [snd] in T. subst m1.
    intros E. apply IH in E. subst m'. cbn [self trace negb is_none].
    now rewrite call_ops_with_state, <- app_assoc.
Qed.

Lemma count_step_ops ws :
  length (filter is_matmul (step_ops ws)) = if ws then 2 else 1.
Proof. destruct ws; reflexivity. Qed.

Lemma count_repeated_ops n :
  length (filter is_matmul (concat (repeat (step_ops true) n))) = 2 * n.
Proof.
  induction n as [|n IH]; [reflexivity|].
  cbn [repeat concat]. rewrite filter_app, length_app, IH, count_step_ops. lia.
Qed.

(** A call that returns has entered exactly the library calls of its
    steps, in order: per step one product with [W_xh], one with [W_hh], two
    additions and one [tanh], except that the first step of a call without
    an initial state has no product with [W_hh].  Over [T] steps that is
    [2 * T] products with a state and [2 * T - 1] without (none for
    [T = 0]), and the module object is as it was. *)
Theorem calls_entered_by_a_run (inputs : list (array F)) (st : option (array F))
    (m m' : machine F) (outs : list (array F)) (fin : pyval F) :
  RNNScratch_call inputs (as_argument st) m = (Ok (outs, fin), m') ->
  m' = {| self := self m;
          trace := trace m ++ call_ops (has_state st) (length inputs) |} /\
  length (filter is_matmul (call_ops (has_state st) (length inputs)))
  = 2 * length inputs - (if has_state st then 0 else 1).
Proof.
  rewrite call_as_argument. intros E. apply for_loop_trace in E.
  replace (negb (is_none (as_returned st))) with (has_state st) in E
    by (destruct st; reflexivity).
  split; [exact E|].
  destruct (length inputs) as [|n]; [now destruct (has_state st)|].
  cbn [call_ops]. rewrite filter_app, length_app, count_repeated_ops, count_step_ops.
  destruct (has_state st); lia.
Qed.

End Calls.

(* ================================================================== *)
(** ** A freshly constructed cell *)

Section Fresh.
Context {F : Type} `{ExactScalar F}.

Lemma add_zero_bias (a : array F) key b h :
  shape a = [b; h] -> rectangular a -> add a (zeros_init key h) = Ok a.
Proof.
  intros Ha Ra. destruct (shape_rank2 _ Ha) as [rows [-> La]].
  unfold add, zeros_init. cbn [atleast_2d rank Nat.max of_rows].
  rewrite repeat_length, bdim_same.
  change (length [repeat fzero h]) with 1.
  rewrite (bdim_fits (a := length rows) (or_intror eq_refl)).
  do 2 f_equal.
  rewrite stretch_same by reflexivity. rewrite stretch_single.
  rewrite (zip_with_repeat_r _ _ _ eq_refl).
  apply map_id_in. intros r I. apply add_vec_zero_row.
  simpl in Ra. rewrite Forall_forall in Ra. now apply Ra.
Qed.


End Fresh.

(* ================================================================== *)
(** ** One-hot encoding of a minibatch *)

Section OneHot.
Context {F : Type} {SF : Scalar F} {UF : UnitScalar F}.

Lemma one_hot_vec_length n tok : length (one_hot_vec n tok : list F) = n.
Proof. unfold one_hot_vec. now rewrite length_map, length_seq. Qed.

Lemma one_hot_slices (self : RNNLMScratch F) (X : tokens) :
  Forall (fun s => shape s = [length (t_rows X); vocab_size self])
    (RNNLMScratch_one_hot self X).
Proof.
  unfold RNNLMScratch_one_hot, jax_nn_one_hot, tokens_T. cbn [t_rows].
  apply Forall_forall. intros s I. apply in_map_iff in I.
  destruct I as [r [<- Ir]]. apply in_map_iff in Ir. destruct Ir as [j [<- _]].
  simpl. now rewrite !length_map.
Qed.

Lemma one_hot_steps (self : RNNLMScratch F) (X : tokens) :
  length (RNNLMScratch_one_hot self X) = t_ncols X.
Proof.
  unfold RNNLMScratch_one_hot, jax_nn_one_hot, tokens_T. cbn [t_rows].
  now rewrite !length_map, length_seq.
Qed.

(** The encoded minibatch is time-major: for tokens of shape
    [(batch_size, num_steps)], and a vocabulary within the range of the
    32-bit indices, it has one slice per time step, each of shape
    [(batch_size, vocab_size)], and row [b] of slice [t] is the encoding of
    token [X[b][t]]: a one at the index that is the token's 32-bit value
    when that is below [vocab_size], zeros everywhere else. *)
Theorem one_hot_is_time_major (self : RNNLMScratch F) (X : tokens) :
  (Z.of_nat (vocab_size self) <= 2147483648)%Z ->
  tokens_rectangular X ->
  check_len (RNNLMScratch_one_hot self X) (t_ncols X) = true /\
  Forall (fun s => check_shape s [length (t_rows X); vocab_size self] = true)
    (RNNLMScratch_one_hot self X) /\
  (forall b t row tok,
     nth_error (t_rows X) b = Some row -> nth_error row t = Some tok ->
     exists rows,
       nth_error (RNNLMScratch_one_hot self X) t
       = Some (Arr2 (vocab_size self) rows) /\
       nth_error rows b = Some (one_hot_vec (vocab_size self) tok)) /\
  (forall tok k,
     k < vocab_size self ->
     nth_error (one_hot_vec (vocab_size self) tok) k
     = Some (if (Z.of_nat k =? int32 tok)%Z then fone else fzero)).
Proof.
  intros _ R. split; [|split; [|split]].
  - unfold check_len. now rewrite one_hot_steps, Nat.eqb_refl.
  - eapply Forall_impl; [|apply one_hot_slices]. intros a. apply check_shape_true.
  - intros b t row tok Hb Ht.
    assert (t < t_ncols X) as Lt.
    { unfold tokens_rectangular in R. rewrite Forall_forall in R.
      rewrite <- (R row (nth_error_In _ _ Hb)).
      apply nth_error_Some. congruence. }
    unfold RNNLMScratch_one_hot, jax_nn_one_hot, tokens_T. cbn [t_rows].
    eexists. split.
    + rewrite !nth_error_map, nth_error_seq.
      apply Nat.ltb_lt in Lt. rewrite Lt. reflexivity.
    + rewrite !nth_error_map, Hb. cbn [option_map Nat.add].
      now rewrite (nth_error_nth _ _ 0%Z Ht).
  - intros tok k Hk. unfold one_hot_vec.
    rewrite nth_error_map, nth_error_seq.
    apply Nat.ltb_lt in Hk. now rewrite Hk.
Qed.

End OneHot.

Section Lookup.
Context {F : Type} {SF : Scalar F} {UF : UnitScalar F}
        {EF : ExactScalar F} {EU : ExactUnitScalar F}.

Lemma fold_zero_terms (l : list F) (acc : F) :
  Forall (fun x => x = fzero) l -> fold_left fadd l acc = acc.
Proof.
  intros Z. revert acc. induction Z as [|x l -> _ IH]; intros acc; simpl;
    [reflexivity|].
  now rewrite fadd_0_r.
Qed.

Lemma one_hot_terms_zero (tok : Z) (n s : nat) (col : list F) :
  (tok < Z.of_nat s \/ Z.of_nat (s + n) <= tok)%Z ->
  Forall (fun x => x = fzero)
    (zip_with fmul
       (map (fun k => if (Z.of_nat k =? tok)%Z then fone else fzero) (seq s n))
       col).
Proof.
  intros Out. apply Forall_forall. intros z I.
  apply zip_with_in in I. destruct I as (u & v & Iu & _ & ->).
  apply in_map_iff in Iu. destruct Iu as [k [<- Ik]]. apply in_seq in Ik.
  destruct (Z.eqb_spec (Z.of_nat k) tok); [lia|]. apply fmul_0_l.
Qed.

Lemma one_hot_terms_hit (t n : nat) :
  forall (s : nat) (col : list F),
    length col = n -> s <= t < s + n ->
    fold_left fadd
      (zip_with fmul
         (map (fun k => if (Z.of_nat k =? Z.of_nat t)%Z then fone else fzero)
              (seq s n))
         col) fzero
    = nth (t - s) col fzero.
Proof.
  induction n as [|n IH]; intros s col L B; [lia|].
  destruct col as [|c col]; [discriminate|]. injection L as L.
  cbn [seq map zip_with combine fold_left fst snd].
  change (map (fun p => fmul (fst p) (snd p)) (combine ?a ?b))
    with (zip_with fmul a b).
  destruct (Z.eqb_spec (Z.of_nat s) (Z.of_nat t)) as [E|N].
  - assert (s = t) by lia. subst s. rewrite fmul_1_l, fadd_0_l.
    rewrite fold_zero_terms by (apply one_hot_terms_zero; lia).
    now rewrite Nat.sub_diag.
  - rewrite fmul_0_l, fadd_0_r. rewrite (IH (S s) col L) by lia.
    replace (t - s) with (S (t - S s)) by lia. reflexivity.
Qed.

Lemma int32_in_range (t : Z) :
  (-2147483648 <= t < 2147483648)%Z -> int32 t = t.
Proof. intros R. unfold int32. rewrite Z.mod_small; lia. Qed.

Lemma int32_wraps (t : Z) : int32 (t + 4294967296) = int32 t.
Proof.
  unfold int32.
  replace (t + 4294967296 + 2147483648)%Z
    with (t + 2147483648 + 1 * 4294967296)%Z by lia.
  now rewrite Z.mod_add by lia.
Qed.

Lemma dot_one_hot (n : nat) (tok : Z) (col : list F) :
  length col = n ->
  dot (one_hot_vec n tok) col
  = if ((0 <=? int32 tok)%Z && (int32 tok <? Z.of_nat n)%Z)%bool
    then nth (Z.to_nat (int32 tok)) col fzero else fzero.
Proof.
  intros L. unfold dot, one_hot_vec.
  generalize (int32 tok) as v. clear tok. intros tok.
  destruct (Z.leb_spec 0 tok); destruct (Z.ltb_spec tok (Z.of_nat n));
    cbn [andb].
  - assert (tok = Z.of_nat (Z.to_nat tok)) as E by lia.
    revert E. generalize (Z.to_nat tok) as t. intros t ->.
    rewrite (@one_hot_terms_hit t n 0 col L) by lia.
    now rewrite Nat.sub_0_r.
  - apply fold_zero_terms, one_hot_terms_zero. lia.
  - apply fold_zero_terms, one_hot_terms_zero. lia.
  - apply fold_zero_terms, one_hot_terms_zero. lia.
Qed.

Lemma nth_column (j t : nat) (w : list (list F)) :
  nth t (column j w) fzero = nth j (nth t w []) fzero.
Proof.
  unfold column.
  rewrite <- (map_nth (fun r => nth j r fzero) w [] t). now destruct j.
Qed.

Lemma row_from_nth (row : list F) :
  map (fun j => nth j row fzero) (seq 0 (length row)) = row.
Proof.
  apply (nth_ext _ _ fzero fzero).
  - now rewrite length_map, length_seq.
  - intros k Hk. rewrite length_map, length_seq in Hk.
    rewrite (nth_indep _ fzero (nth 0 row fzero))
      by (now rewrite length_map, length_seq).
    rewrite (map_nth (fun j => nth j row fzero) (seq 0 (length row)) 0 k).
    now rewrite seq_nth.
Qed.

Lemma vecmat_one_hot (h : nat) (w : list (list F)) (tok : Z) :
  Forall (fun r => length r = h) w ->
  vecmat h (one_hot_vec (length w) tok) w = selected_row h w tok.
Proof.
  intros R. unfold vecmat, selected_row.
  rewrite (map_ext _ (fun j =>
    if ((0 <=? int32 tok)%Z && (int32 tok <? Z.of_nat (length w))%Z)%bool
    then nth j (nth (Z.to_nat (int32 tok)) w []) fzero else fzero)).
  - destruct ((0 <=? int32 tok)%Z && (int32 tok <? Z.of_nat (length w))%Z)%bool
      eqn:In.
    + apply andb_prop in In. destruct In as [I1 I2].
      apply Z.leb_le in I1. apply Z.ltb_lt in I2.
      rewrite Forall_forall in R.
      rewrite <- (R (nth (Z.to_nat (int32 tok)) w [])) at 1
        by (apply nth_In; lia).
      apply row_from_nth.
    + now rewrite map_const, length_seq.
  - intros j. rewrite dot_one_hot by (unfold column; now rewrite length_map).
    destruct ((0 <=? int32 tok)%Z && (int32 tok <? Z.of_nat (length w))%Z)%bool;
      [apply nth_column | reflexivity].
Qed.


End Lookup.

Section Pipeline.
Context {F : Type} {SF : Scalar F} {UF : UnitScalar F}.

(** For a positive vocabulary size (within the range of the 32-bit
    indices) and a positive number of hidden units, both constructors
    return, and the cell built for [vocab_size] inputs runs on the encoding
    of any minibatch of tokens of shape [(batch_size, num_steps)]: the call
    returns [num_steps] states, each of shape [(batch_size, num_hiddens)],
    and each can be multiplied with the language model's [W_hq], giving
    shape [(batch_size, vocab_size)]. *)
Theorem encoded_minibatch_runs (sample : nat -> nat -> nat -> F) (X : tokens)
    (vocab num_hiddens rngs rngs' : nat) (t : list op) :
  0 < vocab -> (Z.of_nat vocab <= 2147483648)%Z -> 0 < num_hiddens ->
  exists rnn lm outs fin m',
    RNNScratch_init sample vocab num_hiddens rngs = inr rnn /\
    RNNLMScratch_init sample rnn vocab rngs' = inr lm /\
    RNNScratch_call (RNNLMScratch_one_hot lm X) PyNone
      {| self := rnn; trace := t |}
    = (Ok (outs, fin), m') /\
    check_len outs (t_ncols X) = true /\
    Forall (fun o =>
              check_shape o [length (t_rows X); num_hiddens] = true /\
              exists y, matmul o (W_hq lm) = Ok y /\
                        shape y = [length (t_rows X); vocab]) outs.
Proof.
  intros Hv _ Hh.
  destruct (init_built sample rngs Hv Hh) as (rnn & Er & P & _).
  pose proof P as (_ & _ & _ & Nh).
  destruct (he_normal_built sample rngs' Hh Hv) as (wq & Eq & Sq).
  set (lm := {| W_hq := wq; b_q := zeros_init (S rngs') vocab;
                vocab_size := vocab |}).
  assert (RNNLMScratch_init sample rnn vocab rngs' = inr lm) as El
    by (unfold RNNLMScratch_init; now rewrite Nh, Eq).
  set (m := {| self := rnn; trace := t |}).
  destruct (for_loop_shape (acc := []) None m P (one_hot_slices lm X) I
              (Forall_nil _))
    as (outs & fin & m' & E & L & Fo & _ & _).
  exists rnn, lm, outs, (as_returned fin), m'.
  split; [exact Er|]. split; [exact El|]. split; [exact E|]. split.
  - unfold check_len. simpl in L. now rewrite L, one_hot_steps, Nat.eqb_refl.
  - eapply Forall_impl; [|exact Fo]. intros o So. split.
    + now apply check_shape_true.
    + destruct (matmul_shape _ _ So Sq) as (y & Ey & Sy & _).
      now exists y.
Qed.

End Pipeline.

(* ================================================================== *)
(** ** Synthetic regression data *)

Section RegressionFacts.
Context {F : Type} `{Scalar F}.
Variable draw : nat -> nat -> nat -> nat -> F.

Lemma zip_with_maps {A B C D} (f : B -> C -> D) (g : A -> B) (k : A -> C)
    (l : list A) :
  zip_with f (map g l) (map k l) = map (fun a => f (g a) (k a)) l.
Proof.
  unfold zip_with. induction l as [|a l IH]; simpl; [reflexivity|].
  now rewrite IH.
Qed.

Lemma column_of_reshaped (wv : list F) :
  column 0 (map (fun e => [e]) wv) = wv.
Proof.
  unfold column. rewrite map_map. cbn [nth]. apply map_id.
Qed.

Lemma matmul_column (d : nat) (rows : list (list F)) (wv : list F) :
  length wv = d ->
  matmul (Arr2 d rows) (reshape_column (Arr1 wv))
  = Ok (Arr2 1 (map (fun r => [dot r wv]) rows)).
Proof.
  intros L. unfold reshape_column. cbn [entries matmul].
  rewrite length_map, L, Nat.eqb_refl. do 2 f_equal.
  apply map_ext. intros r. unfold vecmat. cbn [seq map].
  now rewrite column_of_reshaped.
Qed.

Lemma add_scalar_to_column {A} (g : A -> F) (l : list A) (b : F) :
  add (Arr2 1 (map (fun a => [g a]) l)) (Arr0 b)
  = Ok (Arr2 1 (map (fun a => [fadd (g a) b]) l)).
Proof.
  unfold add. cbn [atleast_2d rank Nat.max of_rows].
  rewrite bdim_same. change (length [[b]]) with 1.
  rewrite (bdim_fits (a := length (map (fun a => [g a]) l)) (or_intror eq_refl)).
  do 2 f_equal. rewrite stretch_same by reflexivity. rewrite stretch_single.
  rewrite (zip_with_repeat_r _ _ _ eq_refl), map_map.
  apply map_ext. intros a. reflexivity.
Qed.

Lemma add_columns {A} (g k : A -> F) (l : list A) :
  add (Arr2 1 (map (fun a => [g a]) l)) (Arr2 1 (map (fun a => [k a]) l))
  = Ok (Arr2 1 (map (fun a => [fadd (g a) (k a)]) l)).
Proof.
  unfold add. cbn [atleast_2d rank Nat.max of_rows].
  rewrite !bdim_same, !length_map, bdim_same.
  do 2 f_equal. rewrite !stretch_same by now rewrite length_map.
  rewrite zip_with_maps. apply map_ext. intros a. reflexivity.
Qed.

(** For a weight vector [w] of length [d], [gen_reg_data] returns features
    of shape [(n, d)], the draws of the first key, and labels of shape
    [(n, 1)] that follow the linear model: label [i] is
    [(x_i . w + b) + eps_i * noise], with [eps_i] the draw of the second
    key.  It raises for no [n], [d] or seed. *)
Theorem gen_reg_data_labels (wv : list F) (b noise : F) (seed n : nat) :
  exists X y,
    gen_reg_data draw (Arr1 wv) b seed noise n = inr (X, y) /\
    X = normal_sample draw seed 0 n (length wv) /\
    check_shape X [n; length wv] = true /\
    check_shape y [n; 1] = true /\
    y = Arr2 1
          (map (fun i =>
                  [fadd (fadd (dot (map (fun j => draw seed 0 i j)
                                        (seq 0 (length wv))) wv) b)
                        (fmul (draw seed 1 i 0) noise)])
               (seq 0 n)).
Proof.
  eexists; eexists. split; [|split; [reflexivity|split; [|split]]].
  - unfold gen_reg_data. cbn [shape normal_sample scale].
    unfold normal_sample at 1. rewrite (matmul_column _ _ eq_refl). cbn [result_bind].
    rewrite map_map.
    rewrite (add_scalar_to_column
               (fun i => dot (map (fun j => draw seed 0 i j) (seq 0 (length wv))) wv)
               (seq 0 n) b).
    cbn [result_bind]. rewrite !map_map. cbn [seq map].
    rewrite (add_columns
               (fun i => fadd (dot (map (fun j => draw seed 0 i j)
                                        (seq 0 (length wv))) wv) b)
               (fun i => fmul (draw seed 1 i 0) noise) (seq 0 n)).
    reflexivity.
  - apply check_shape_true. unfold normal_sample. simpl.
    now rewrite length_map, length_seq.
  - apply check_shape_true. simpl. now rewrite length_map, length_seq.
  - reflexivity.
Qed.

(** [gen_reg_data] needs [w] to be a vector or a column: a rank-0 [w] fails
    at [w.shape[0]], and a rank-2 [w] whose number of entries is not its
    number of rows fails inside [jnp.matmul], the reshaped [w] being longer
    (or shorter) than the features are wide. *)
Theorem gen_reg_data_needs_a_vector (b noise : F) (seed n : nat) :
  (forall x, gen_reg_data draw (Arr0 x) b seed noise n = inl ShapeIndexError) /\
  (forall c rows,
     length (concat rows) <> length rows ->
     gen_reg_data draw (Arr2 c rows) b seed noise n
     = inl (LibraryError MatmulShapeError)).
Proof.
  split; [reflexivity|]. intros c rows N.
  unfold gen_reg_data, reshape_column. cbn [shape normal_sample entries matmul].
  rewrite length_map.
  destruct (Nat.eqb_spec (length rows) (length (concat rows))) as [E|_];
    [now symmetry in E | reflexivity].
Qed.

End RegressionFacts.

(* ================================================================== *)
(** ** The further properties on concrete inputs *)

Lemma outputs_of_a_prefix_witness :
  exists s1 m1,
    RNNScratch_call [Corpus.ones] PyNone Notebook.start
    = (Ok (firstn 1 Notebook.outputs, s1), m1) /\
    RNNScratch_call [Corpus.ones] (hand_back s1) m1
    = (Ok (skipn 1 Notebook.outputs, Notebook.state), Notebook.after_call).
Proof.
  apply (@outputs_of_a_prefix Z Z_scalar [Corpus.ones] [Corpus.ones] PyNone
           Notebook.start Notebook.after_call Notebook.outputs Notebook.state).
  vm_compute. reflexivity.
Defined.

Lemma one_bad_step_fails_the_call_witness :
  fst (RNNScratch_call (Notebook.X ++ Notebook.X5 :: [Corpus.ones]) PyNone
         Notebook.start)
  = Raise MatmulShapeError /\
  exists outs fin,
    fst (RNNScratch_call Notebook.X PyNone Notebook.start) = Ok (outs, fin) /\
    length outs = length Notebook.X.
Proof.
  apply (@one_bad_step_fails_the_call Z Z_scalar Notebook.X [Corpus.ones]
           Notebook.X5 None Notebook.start 2 3 2 2 5).
  - repeat split.
  - repeat constructor.
  - exact I.
  - reflexivity.
  - lia.
Defined.

Lemma step_broadcasts_batch_witness :
  (1 = 2 \/ 1 = 1 ->
   exists out, fst (loop_body Corpus.ones (PyArr (zeros 1 3)) Notebook.start) = Ok out /\
               shape out = [2; 3]) /\
  (2 = 1 ->
   exists out, fst (loop_body Corpus.ones (PyArr (zeros 1 3)) Notebook.start) = Ok out /\
               shape out = [1; 3]) /\
  (2 <> 1 -> 2 <> 1 -> 1 <> 1 ->
   loop_body Corpus.ones (PyArr (zeros 1 3)) Notebook.start
   = (Raise BroadcastShapeError,
      {| self := Notebook.rnn; trace := [] ++ [OpMatmul; OpMatmul; OpAdd] |})).
Proof.
  apply (@step_broadcasts_batch Z Z_scalar Corpus.ones (zeros 1 3)
           Notebook.start 2 3 2 1).
  - repeat split.
  - reflexivity.
  - reflexivity.
Defined.

(** A state of batch size 3 against an input of batch size 2. *)
Example batch_sizes_that_do_not_broadcast :
  loop_body Corpus.ones (PyArr (zeros 3 3)) Notebook.start
  = (Raise BroadcastShapeError,
     {| self := Notebook.rnn; trace := [OpMatmul; OpMatmul; OpAdd] |}).
Proof. reflexivity. Qed.

Lemma single_state_needs_no_tuple_witness :
  RNNScratch_call (Arr2 2 [[1; 1]]%Z :: [Arr2 2 [[1; 1]]%Z])
    (PyArr (Arr2 3 [[0; 1; -1]]%Z)) Notebook.start
  = RNNScratch_call (Arr2 2 [[1; 1]]%Z :: [Arr2 2 [[1; 1]]%Z])
      (PyTuple [PyArr (Arr2 3 [[0; 1; -1]]%Z)]) Notebook.start.
Proof.
  apply (@single_state_needs_no_tuple Z Z_scalar (Arr2 2 [[1; 1]]%Z)
           [Arr2 2 [[1; 1]]%Z] [0; 1; -1]%Z Notebook.start 2 3 1 2).
  - repeat split.
  - reflexivity.
  - reflexivity.
Defined.

Lemma calls_entered_by_a_run_witness :
  Notebook.after_call
  = {| self := Notebook.rnn; trace := [] ++ call_ops false (length Notebook.X) |} /\
  length (filter is_matmul (call_ops false (length Notebook.X)))
  = 2 * length Notebook.X - 1.
Proof.
  apply (@calls_entered_by_a_run Z Z_scalar Notebook.X None Notebook.start
           Notebook.after_call Notebook.outputs Notebook.state).
  vm_compute. reflexivity.
Defined.


Lemma one_hot_is_time_major_witness :
  check_len (RNNLMScratch_one_hot Corpus.model Corpus.X) 3 = true /\
  Forall (fun s => check_shape s [2; 5] = true)
    (RNNLMScratch_one_hot Corpus.model Corpus.X) /\
  (forall b t row tok,
     nth_error (t_rows Corpus.X) b = Some row -> nth_error row t = Some tok ->
     exists rows,
       nth_error (RNNLMScratch_one_hot Corpus.model Corpus.X) t
       = Some (Arr2 5 rows) /\
       nth_error rows b = Some (one_hot_vec 5 tok)) /\
  (forall tok k,
     k < 5 ->
     nth_error (one_hot_vec 5 tok) k
     = Some (if (Z.of_nat k =? int32 tok)%Z then 1%Z else 0%Z)).
Proof.
  apply (@one_hot_is_time_major Z Z_scalar Z_unit Corpus.model Corpus.X).
  - simpl. lia.
  - repeat constructor.
Defined.


Lemma encoded_minibatch_runs_witness :
  exists rnn lm outs fin m',
    RNNScratch_init Notebook.sample 5 3 0 = inr rnn /\
    RNNLMScratch_init Notebook.sample rnn 5 3 = inr lm /\
    RNNScratch_call (RNNLMScratch_one_hot lm Corpus.X) PyNone
      {| self := rnn; trace := [] |}
    = (Ok (outs, fin), m') /\
    check_len outs 3 = true /\
    Forall (fun o =>
              check_shape o [2; 3] = true /\
              exists y, matmul o (W_hq lm) = Ok y /\ shape y = [2; 5]) outs.
Proof.
  apply (@encoded_minibatch_runs Z Z_scalar Z_unit Notebook.sample Corpus.X
           5 3 0 3 []).
  - lia.
  - simpl. lia.
  - lia.
Defined.

(** The notebook's [jax.nn.one_hot(jnp.array([0, 2]), 5)], a token that
    wraps around to class 1, a negative token, and the encoding of the
    example minibatch. *)
Example notebook_one_hot :
  map (one_hot_vec 5) [0; 2]%Z = [[1; 0; 0; 0; 0]; [0; 0; 1; 0; 0]]%Z /\
  one_hot_vec 5 4294967297%Z = [0; 1; 0; 0; 0]%Z /\
  one_hot_vec 5 (-1)%Z = [0; 0; 0; 0; 0]%Z /\
  RNNLMScratch_one_hot Corpus.model Corpus.X
  = [Arr2 5 [[1; 0; 0; 0; 0]; [0; 1; 0; 0; 0]]%Z;
     Arr2 5 [[0; 0; 1; 0; 0]; [0; 1; 0; 0; 0]]%Z;
     Arr2 5 [[0; 1; 0; 0; 0]; [0; 0; 0; 0; 1]]%Z].
Proof. repeat split. Qed.

(** [gen_reg_data] on [w = [2, 3]], [b = 4], noise factor 10 and 3 rows. *)
Example regression_example :
  gen_reg_data Corpus.draw (Arr1 [2; 3]%Z) 4%Z 7 10%Z 3
  = inr (Arr2 2 [[7; 8]; [9; 10]; [11; 12]]%Z, Arr2 1 [[122]; [152]; [182]]%Z).
Proof. reflexivity. Qed.
